(** * OpenLovart dashboard: credit bootstrap, project listing, project creation

    A shallow embedding of [src/app/lovart/page.tsx] (the [LovartDashboard]
    component: its [loadData] effect, its [handleGenerate] handler and the
    preview it renders) together with the part of the ECMAScript string
    library these use ([trim], [slice], [||], [encodeURIComponent]).

    JavaScript strings are sequences of UTF-16 code units; they are modelled
    as [list N], every element below 2^16.  React state is a record, the
    browser and the store are reached through an explicit world that is
    threaded through a small state-and-exception monad, and everything that
    the component does to the outside (requests, responses, alerts, console
    output, navigation) is appended to a trace. *)

From Stdlib Require Import ZArith NArith List Bool Lia Ascii String Sorted.
From stdpp Require Import gmap list sorting.
Import ListNotations.

Local Open Scope N_scope.

(** ** ECMAScript strings *)

Module Js.

(** A string value: its UTF-16 code units. *)
Abbreviation jsstring := (list N).

(** The code units of an ASCII literal. *)
Fixpoint lit (s : String.string) : jsstring :=
  match s with
  | EmptyString => []
  | String a s' => N_of_ascii a :: lit s'
  end.

(** ToBoolean on a string: only the empty string is falsy. *)
Definition truthy (s : jsstring) : bool :=
  match s with [] => false | _ :: _ => true end.

(** [a || b] on strings. *)
Definition or_else (a b : jsstring) : jsstring :=
  if truthy a then a else b.

(** WhiteSpace and LineTerminator code points (ECMA-262, 12.2 and 12.3):
    what [String.prototype.trim] strips. *)
Definition isWhiteSpace (c : N) : bool :=
  (c =? 0x9) || (c =? 0xA) || (c =? 0xB) || (c =? 0xC) || (c =? 0xD) ||
  (c =? 0x20) || (c =? 0xA0) || (c =? 0x1680) ||
  ((0x2000 <=? c) && (c <=? 0x200A)) ||
  (c =? 0x2028) || (c =? 0x2029) || (c =? 0x202F) || (c =? 0x205F) ||
  (c =? 0x3000) || (c =? 0xFEFF).

Fixpoint trimStart (s : jsstring) : jsstring :=
  match s with
  | [] => []
  | c :: s' => if isWhiteSpace c then trimStart s' else s
  end.

Definition trimEnd (s : jsstring) : jsstring := rev (trimStart (rev s)).

(** [s.trim()] *)
Definition trim (s : jsstring) : jsstring := trimEnd (trimStart s).

(** [s.slice(0, n)] for a non-negative [n]: the first [n] code units, or
    all of [s] when it is shorter.  The same holds of [Array.prototype.slice]. *)
Definition slice0 {A} (n : nat) (s : list A) : list A := firstn n s.

(** *** encodeURIComponent

    ECMA-262 22.1.3 [Encode] with the unreserved set of [encodeURIComponent]:
    ASCII letters, decimal digits and [-_.!~*'()] are copied; every other
    code point is written as the percent-escaped octets of its UTF-8
    encoding; an unpaired surrogate makes the call throw a [URIError]
    (here: [None]). *)

Definition isAlnum (c : N) : bool :=
  ((0x30 <=? c) && (c <=? 0x39)) ||
  ((0x41 <=? c) && (c <=? 0x5A)) ||
  ((0x61 <=? c) && (c <=? 0x7A)).

(** The marks [- _ . ! ~ * ' ( )]. *)
Definition isMark (c : N) : bool :=
  (c =? 0x2D) || (c =? 0x5F) || (c =? 0x2E) || (c =? 0x21) || (c =? 0x7E) ||
  (c =? 0x2A) || (c =? 0x27) || (c =? 0x28) || (c =? 0x29).

Definition uriUnreserved (c : N) : bool := isAlnum c || isMark c.

Definition isLeadSurrogate (c : N) : bool := (0xD800 <=? c) && (c <=? 0xDBFF).
Definition isTrailSurrogate (c : N) : bool := (0xDC00 <=? c) && (c <=? 0xDFFF).

(** UTF16SurrogatePairToCodePoint *)
Definition codePointOfPair (lead trail : N) : N :=
  (lead - 0xD800) * 0x400 + (trail - 0xDC00) + 0x10000.

(** The UTF-8 octets of a code point below 0x110000. *)
Definition utf8 (cp : N) : list N :=
  if cp <? 0x80 then [cp]
  else if cp <? 0x800 then
    [N.lor 0xC0 (N.shiftr cp 6); N.lor 0x80 (N.land cp 0x3F)]
  else if cp <? 0x10000 then
    [N.lor 0xE0 (N.shiftr cp 12);
     N.lor 0x80 (N.land (N.shiftr cp 6) 0x3F);
     N.lor 0x80 (N.land cp 0x3F)]
  else
    [N.lor 0xF0 (N.shiftr cp 18);
     N.lor 0x80 (N.land (N.shiftr cp 12) 0x3F);
     N.lor 0x80 (N.land (N.shiftr cp 6) 0x3F);
     N.lor 0x80 (N.land cp 0x3F)].

(** An upper-case hexadecimal digit. *)
Definition hexDigit (d : N) : N :=
  if d <? 10 then 0x30 + d else 0x41 + (d - 10).

(** ["%XX"] for one octet. *)
Definition percent (octet : N) : jsstring :=
  [0x25; hexDigit (N.shiftr octet 4); hexDigit (N.land octet 0xF)].

Definition escapeCodePoint (cp : N) : jsstring :=
  List.concat (List.map percent (utf8 cp)).

Fixpoint encodeURIComponent (s : jsstring) : option jsstring :=
  match s with
  | [] => Some []
  | c :: rest =>
      if uriUnreserved c then
        option_map (cons c) (encodeURIComponent rest)
      else if isLeadSurrogate c then
        match rest with
        | d :: rest' =>
            if isTrailSurrogate d then
              option_map (app (escapeCodePoint (codePointOfPair c d)))
                         (encodeURIComponent rest')
            else None
        | [] => None
        end
      else if isTrailSurrogate c then None
      else option_map (app (escapeCodePoint c)) (encodeURIComponent rest)
  end.

(** No unpaired surrogate: the strings on which [encodeURIComponent]
    returns. *)
Fixpoint wellFormed (s : jsstring) : bool :=
  match s with
  | [] => true
  | c :: rest =>
      if isLeadSurrogate c then
        match rest with
        | d :: rest' => isTrailSurrogate d && wellFormed rest'
        | [] => false
        end
      else negb (isTrailSurrogate c) && wellFormed rest
  end.

(** [v || d] on a number that may be missing ([undefined]/[null]): zero and
    a missing value are falsy.  Numbers that reach this component are the
    integers of the [credits] column. *)
Definition num_or (v : option Z) (d : Z) : Z :=
  match v with
  | Some n => if (n =? 0)%Z then d else n
  | None => d
  end.

End Js.

Export Js.

(** ** Data model *)

(** [interface Project] of page.tsx. *)
Record Project := {
  project_id : jsstring;
  project_title : jsstring;
  project_thumbnail : option jsstring;
  project_updated_at : jsstring
}.

(** The row that [.select('credits')] and the insert on [user_credits]
    answer with; the component reads it through [data?.credits], so the
    field may be missing. *)
Record CreditsRow := { row_credits : option Z }.

(** The [user] of [useUser()]; only [user.id] is read. *)
Record User := { user_id : jsstring }.

(** The error object of a store response; [code] and [message] are the
    fields the component reads. *)
Record PostgrestError := { message : jsstring; code : jsstring }.

(** What awaiting a query resolves to: [{ data, error }]. *)
Record Result (A : Type) := { data : option A; error : option PostgrestError }.
Arguments data {A} _.
Arguments error {A} _.

(** The four queries the component builds. *)
Inductive Request :=
| SelectProjects (orderColumn : jsstring) (ascending : bool)
    (* from('projects').select('*').order(orderColumn, { ascending }) *)
| SelectCredits (eqColumn value : jsstring)
    (* from('user_credits').select('credits').eq(eqColumn, value).single() *)
| InsertCredits (uid : jsstring) (amount : Z)
    (* from('user_credits').insert({ user_id, credits }).select().single() *)
| InsertProject (id title : jsstring).
    (* from('projects').insert({ id, title }).select().single() *)

Definition Row (r : Request) : Type :=
  match r with
  | SelectProjects _ _ => list Project
  | SelectCredits _ _ => CreditsRow
  | InsertCredits _ _ => CreditsRow
  | InsertProject _ _ => Project
  end.

(** The client handle of [useSupabase()]: every query is answered with a
    result and may change the store [W].  supabase-js resolves a query with
    [{ data, error }] also when the request fails; it does not reject. *)
Definition Supabase (W : Type) : Type := forall r : Request, W -> Result (Row r) * W.

(** The React state of [LovartDashboard] that the two flows and the preview
    read or write ([placeholder], [placeholderIndex] and [showNotifications]
    belong to the typing animation and the notification panel). *)
Record State := {
  projects : list Project;
  isLoading : bool;
  credits : option Z;
  inputValue : jsstring;
  isGenerating : bool
}.

(** The [useState] initial values. *)
Definition initialState : State :=
  {| projects := []; isLoading := true; credits := None;
     inputValue := []; isGenerating := false |}.

(** The state after one [useState] setter. *)
Definition withProjects (v : list Project) (s : State) : State :=
  {| projects := v; isLoading := isLoading s; credits := credits s;
     inputValue := inputValue s; isGenerating := isGenerating s |}.

Definition withIsLoading (v : bool) (s : State) : State :=
  {| projects := projects s; isLoading := v; credits := credits s;
     inputValue := inputValue s; isGenerating := isGenerating s |}.

Definition withCredits (v : Z) (s : State) : State :=
  {| projects := projects s; isLoading := isLoading s; credits := Some v;
     inputValue := inputValue s; isGenerating := isGenerating s |}.

Definition withInputValue (v : jsstring) (s : State) : State :=
  {| projects := projects s; isLoading := isLoading s; credits := credits s;
     inputValue := v; isGenerating := isGenerating s |}.

Definition withIsGenerating (v : bool) (s : State) : State :=
  {| projects := projects s; isLoading := isLoading s; credits := credits s;
     inputValue := inputValue s; isGenerating := v |}.

(** What the component does to the outside, in the order it happens. *)
Inductive Event :=
| EvRequest (r : Request)
| EvSettled (r : Request) (err : option PostgrestError)
| EvConsoleLog (label : jsstring)
| EvConsoleError (label : jsstring)
| EvAlert (msg : jsstring)
| EvNavigate (href : jsstring).

(** Values that are thrown inside the two handlers. *)
Inductive Thrown :=
| ThrownError (msg : jsstring)          (* new Error(msg) *)
| ThrownURIError                        (* from encodeURIComponent *)
| ThrownPostgrest (e : PostgrestError). (* throw projectsResult.error *)

(** The message V8 gives a [URIError] of [encodeURIComponent]; other
    engines word it differently. *)
Definition uriErrorMessage : jsstring := lit "URI malformed".

(** [error instanceof Error ? error.message : fallback] *)
Definition messageOr (e : Thrown) (fallback : jsstring) : jsstring :=
  match e with
  | ThrownError m => m
  | ThrownURIError => uriErrorMessage
  | ThrownPostgrest _ => fallback
  end.

(** ** The effect monad *)

Section Effects.
Context {W : Type}.

Record World := { store : W; ui : State; trace : list Event }.

Inductive Outcome (A : Type) :=
| Returned (a : A)
| Threw (e : Thrown).
Arguments Returned {A} _.
Arguments Threw {A} _.

Definition M (A : Type) : Type := World -> Outcome A * World.

Definition ret {A} (a : A) : M A := fun w => (Returned a, w).

Definition bind {A B} (m : M A) (k : A -> M B) : M B :=
  fun w => match m w with
           | (Returned a, w') => k a w'
           | (Threw e, w') => (Threw e, w')
           end.

Definition throw {A} (e : Thrown) : M A := fun w => (Threw e, w).

(** [try { body } catch (error) { handler }] *)
Definition tryCatch {A} (body : M A) (handler : Thrown -> M A) : M A :=
  fun w => match body w with
           | (Returned a, w') => (Returned a, w')
           | (Threw e, w') => handler e w'
           end.

(** [try { body } finally { final }], for a [final] that does not throw. *)
Definition tryFinally {A} (body : M A) (final : M unit) : M A :=
  fun w => match body w with
           | (o, w') => match final w' with
                        | (Returned _, w'') => (o, w'')
                        | (Threw e, w'') => (Threw e, w'')
                        end
           end.

Definition emit (e : Event) : M unit :=
  fun w => (Returned tt, {| store := store w; ui := ui w; trace := trace w ++ [e] |}).

Definition getState : M State := fun w => (Returned (ui w), w).

Definition setState (f : State -> State) : M unit :=
  fun w => (Returned tt, {| store := store w; ui := f (ui w); trace := trace w |}).

(** The store answers one query. *)
Definition answer (supabase : Supabase W) (r : Request) : M (Result (Row r)) :=
  fun w => let (res, s') := supabase r (store w) in
           (Returned res, {| store := s'; ui := ui w; trace := trace w |}).

End Effects.

Arguments World : clear implicits.
Arguments M : clear implicits.
Arguments Returned {A} _.
Arguments Threw {A} _.

Declare Scope js_scope.
Delimit Scope js_scope with js.
Notation "x <- m ;; k" := (bind m (fun x => k))
  (at level 100, m at next level, right associativity) : js_scope.
Notation "m ;; k" := (bind m (fun _ => k))
  (at level 100, right associativity) : js_scope.
Open Scope js_scope.

(** ** The component *)

Module Text.
(** The non-ASCII literals of page.tsx, as code units. *)

(* '请先登录' *)
Definition pleaseSignIn : jsstring := [0x8BF7; 0x5148; 0x767B; 0x5F55].

(* '系统初始化中，请稍后再试' *)
Definition notReady : jsstring :=
  [0x7CFB; 0x7EDF; 0x521D; 0x59CB; 0x5316; 0x4E2D; 0xFF0C;
   0x8BF7; 0x7A0D; 0x540E; 0x518D; 0x8BD5].

(* '未命名项目' *)
Definition untitled : jsstring := [0x672A; 0x547D; 0x540D; 0x9879; 0x76EE].

(* '创建项目失败: ' *)
Definition createFailed : jsstring :=
  [0x521B; 0x5EFA; 0x9879; 0x76EE; 0x5931; 0x8D25; 0x3A; 0x20].

(* '生成失败，请重试' *)
Definition generateFailed : jsstring :=
  [0x751F; 0x6210; 0x5931; 0x8D25; 0xFF0C; 0x8BF7; 0x91CD; 0x8BD5].

(* 'PGRST116': the single-row read found no row *)
Definition PGRST116 : jsstring := lit "PGRST116".

End Text.

Section Component.
Context {W : Type}.

Definition setProjects (v : list Project) : M W unit := setState (withProjects v).
Definition setIsLoading (v : bool) : M W unit := setState (withIsLoading v).
Definition setCredits (v : Z) : M W unit := setState (withCredits v).
Definition setInputValue (v : jsstring) : M W unit := setState (withInputValue v).
Definition setIsGenerating (v : bool) : M W unit := setState (withIsGenerating v).

Definition alert (msg : jsstring) : M W unit := emit (EvAlert msg).
Definition consoleLog (label : jsstring) : M W unit := emit (EvConsoleLog label).
Definition consoleError (label : jsstring) : M W unit := emit (EvConsoleError label).

(** [window.location.href = href] *)
Definition navigate (href : jsstring) : M W unit := emit (EvNavigate href).

(** [await query]: the request goes out, the flow is suspended until the
    store has answered. *)
Definition await (supabase : Supabase W) (r : Request) : M W (Result (Row r)) :=
  emit (EvRequest r) ;;
  res <- answer supabase r ;;
  emit (EvSettled r (error res)) ;;
  ret res.

(** [await Promise.all([q1, q2])]: both requests go out before either is
    answered, and the flow resumes when both have been. *)
Definition awaitAll2 (supabase : Supabase W) (r1 r2 : Request)
  : M W (Result (Row r1) * Result (Row r2)) :=
  emit (EvRequest r1) ;;
  emit (EvRequest r2) ;;
  res1 <- answer supabase r1 ;;
  res2 <- answer supabase r2 ;;
  emit (EvSettled r1 (error res1)) ;;
  emit (EvSettled r2 (error res2)) ;;
  ret (res1, res2).

(** [creditsResult.error.code === 'PGRST116'] *)
Definition isNoRows (e : PostgrestError) : bool :=
  bool_decide (code e = Text.PGRST116).

(** page.tsx, lines 97-138. *)
Definition loadData (user : option User) (supabase : option (Supabase W)) : M W unit :=
  match user, supabase with
  | Some user, Some supabase =>
      tryFinally
        (tryCatch
           (results <- awaitAll2 supabase
                         (SelectProjects (lit "updated_at") false)
                         (SelectCredits (lit "user_id") (user_id user)) ;;
            let projectsResult := fst results in
            let creditsResult := snd results in
            match error projectsResult with
            | Some e => throw (ThrownPostgrest e)
            | None => ret tt
            end ;;
            setProjects (default [] (data projectsResult)) ;;
            match error creditsResult with
            | Some e =>
                if isNoRows e then
                  inserted <- await supabase (InsertCredits (user_id user) 1000) ;;
                  let newData := data inserted in
                  setCredits (num_or (newData ≫= row_credits) 1000)
                else ret tt
            | None =>
                setCredits (num_or (data creditsResult ≫= row_credits) 0)
            end)
           (fun error => consoleError (lit "Failed to load data:")))
        (setIsLoading false)
  | _, _ => setIsLoading false
  end.

(** [inputValue.trim().slice(0, 50) || '未命名项目'], line 193. *)
Definition projectTitle (inputValue : jsstring) : jsstring :=
  or_else (slice0 50 (trim inputValue)) Text.untitled.

(** The target of the redirect, line 215, when [encodeURIComponent]
    returns. *)
Definition canvasHref (newProjectId encodedPrompt : jsstring) : jsstring :=
  lit "/lovart/canvas?id=" ++ newProjectId ++ lit "&prompt=" ++ encodedPrompt.

(** page.tsx, lines 175-221.  [inputValue] and [isGenerating] are the
    values of the render in which the handler was created; [newProjectId] is
    what [uuidv4()] returns in this run. *)
Definition handleGenerate (user : option User) (supabase : option (Supabase W))
    (newProjectId : jsstring) : M W unit :=
  st <- getState ;;
  let inputValue := inputValue st in
  let isGenerating := isGenerating st in
  if negb (truthy (trim inputValue)) || isGenerating then ret tt
  else
    match user with
    | None => alert Text.pleaseSignIn
    | Some _ =>
        match supabase with
        | None => alert Text.notReady
        | Some supabase =>
            setIsGenerating true ;;
            tryCatch
              (let projectTitle := projectTitle inputValue in
               consoleLog (lit "Creating project:") ;;
               inserted <- await supabase (InsertProject newProjectId projectTitle) ;;
               match error inserted with
               | Some projectError =>
                   consoleError (lit "Failed to create project:") ;;
                   throw (ThrownError (Text.createFailed ++ message projectError))
               | None => ret tt
               end ;;
               consoleLog (lit "Project created successfully:") ;;
               match encodeURIComponent (trim inputValue) with
               | Some encoded => navigate (canvasHref newProjectId encoded)
               | None => throw ThrownURIError
               end)
              (fun error =>
                 consoleError (lit "Generation failed:") ;;
                 alert (messageOr error Text.generateFailed) ;;
                 setIsGenerating false)
    end
    end.

(** The [onKeyDown] of the prompt input, lines 372-376: [key] is [e.key]. *)
Definition onKeyDown (key : jsstring) (user : option User)
    (supabase : option (Supabase W)) (newProjectId : jsstring) : M W unit :=
  st <- getState ;;
  if bool_decide (key = lit "Enter") && truthy (trim (inputValue st))
  then handleGenerate user supabase newProjectId
  else ret tt.

(** The entries under "User's Projects", line 439:
    [user && projects.slice(0, 3).map(...)]; nothing of the grid is rendered
    while [isLoading], line 424. *)
Definition previewProjects (user : option User) (st : State) : list Project :=
  if isLoading st then []
  else match user with
       | Some _ => slice0 3 (projects st)
       | None => []
       end.

(** The balance in the top bar, lines 321-328: inside [SignedIn], and only
    when [credits !== null]. *)
Definition creditsDisplay (user : option User) (st : State) : option Z :=
  match user with
  | Some _ => credits st
  | None => None
  end.

(** A run of a handler from a state of the component and of the store, with
    an empty trace. *)
Definition run {A} (m : M W A) (st : State) (w : W) : Outcome A * World W :=
  m {| store := w; ui := st; trace := [] |}.

Definition stateAfter {A} (m : M W A) (st : State) (w : W) : State := ui (snd (run m st w)).
Definition traceOf {A} (m : M W A) (st : State) (w : W) : list Event := trace (snd (run m st w)).
Definition storeAfter {A} (m : M W A) (st : State) (w : W) : W := store (snd (run m st w)).

End Component.

(** ** The order of the listing *)

Section Ordering.
(** The instant a timestamp text denotes, as [new Date(dateString).getTime()]
    of [formatDate] reads it; the store compares [updated_at] by it. *)
Variable instant : jsstring -> Z.

(** [a] may stand before [b] in a list ordered by [updated_at]. *)
Definition byUpdatedAt (ascending : bool) : relation Project :=
  fun a b =>
    if ascending
    then (instant (project_updated_at a) <= instant (project_updated_at b))%Z
    else (instant (project_updated_at b) <= instant (project_updated_at a))%Z.

#[global] Instance byUpdatedAt_dec ascending a b : Decision (byUpdatedAt ascending a b).
Proof. unfold byUpdatedAt. destruct ascending; apply _. Defined.

(** Most recently edited first. *)
Definition newestFirst (l : list Project) : Prop := Sorted (byUpdatedAt false) l.

(** The contract of an ordered read (the store collaborator's, not this
    component's): the rows come back in the order that was asked for. *)
Definition honoursOrder {W} (supabase : Supabase W) : Prop :=
  forall ascending w rows,
    data (fst (supabase (SelectProjects (lit "updated_at") ascending) w)) = Some rows ->
    Sorted (byUpdatedAt ascending) rows.

End Ordering.

(** ** A reference store

    An in-memory stand-in for the hosted store, as far as the four queries
    go: [user_credits] holds at most one row per [user_id], a single-row
    read of a missing row is answered with error code PGRST116, an insert
    answers with the inserted row, an ordered read sorts.  Any request can
    be made to fail by [faults] (a transport or policy failure); a failed
    request leaves the tables as they were. *)

Module RefStore.

Record Db := {
  user_credits : gmap jsstring Z;   (* user_id -> credits *)
  projects_tbl : list Project;      (* the rows visible to the handle *)
  now : jsstring                    (* the updated_at a new row receives *)
}.

Definition Faults := Request -> option PostgrestError.

Definition noFaults : Faults := fun _ => None.

Definition ok {A} (a : A) : Result A := {| data := Some a; error := None |}.
Definition failed {A} (e : PostgrestError) : Result A := {| data := None; error := Some e |}.

Definition noRows : PostgrestError :=
  {| message := lit "JSON object requested, multiple (or no) rows returned";
     code := Text.PGRST116 |}.

Definition duplicateKey : PostgrestError :=
  {| message := lit "duplicate key value violates unique constraint";
     code := lit "23505" |}.

Definition undefinedColumn : PostgrestError :=
  {| message := lit "column does not exist"; code := lit "42703" |}.

Section Client.
Variable instant : jsstring -> Z.

(** The store at work; only [updated_at] is modelled as a sort column and
    only [user_id] as a filter column, which is what the component asks for. *)
Definition execute (r : Request) (db : Db) : Result (Row r) * Db :=
  match r return Result (Row r) * Db with
  | SelectProjects column ascending =>
      if bool_decide (column = lit "updated_at")
      then (ok (merge_sort (byUpdatedAt instant ascending) (projects_tbl db)), db)
      else (failed undefinedColumn, db)
  | SelectCredits column value =>
      if bool_decide (column = lit "user_id")
      then match user_credits db !! value with
           | Some c => (ok {| row_credits := Some c |}, db)
           | None => (failed noRows, db)
           end
      else (failed undefinedColumn, db)
  | InsertCredits uid amount =>
      match user_credits db !! uid with
      | Some _ => (failed duplicateKey, db)
      | None =>
          (ok {| row_credits := Some amount |},
           {| user_credits := <[uid := amount]> (user_credits db);
              projects_tbl := projects_tbl db; now := now db |})
      end
  | InsertProject id title =>
      if existsb (fun p => bool_decide (project_id p = id)) (projects_tbl db)
      then (failed duplicateKey, db)
      else
        let row := {| project_id := id; project_title := title;
                      project_thumbnail := None; project_updated_at := now db |} in
        (ok row,
         {| user_credits := user_credits db;
            projects_tbl := projects_tbl db ++ [row]; now := now db |})
  end.

Definition client (faults : Faults) : Supabase Db :=
  fun r db =>
    match faults r with
    | Some e => (failed e, db)
    | None => execute r db
    end.

End Client.

(** A failure of the listing read only. *)
Definition listingFails (e : PostgrestError) : Faults :=
  fun r => match r with SelectProjects _ _ => Some e | _ => None end.

(** A failure of every insert. *)
Definition insertsFail (e : PostgrestError) : Faults :=
  fun r => match r with
           | InsertCredits _ _ | InsertProject _ _ => Some e
           | _ => None
           end.

End RefStore.

(** ** Submissions *)

(** The prompt passes the guard of line 176. *)
Definition submits (st : State) : Prop :=
  truthy (trim (inputValue st)) = true /\ isGenerating st = false.

Definition projectInsert (newProjectId : jsstring) (st : State) : Request :=
  InsertProject newProjectId (projectTitle (inputValue st)).

(** The six ways a run of [handleGenerate] can go: rejected by the guard,
    stopped for want of an identity or of a store handle, failed at the
    insert, ended in the navigation, or stopped by [encodeURIComponent]. *)
Inductive GenerateRun {W} (newProjectId : jsstring) (st : State) (w : W)
  : Outcome unit * World W -> Prop :=
| run_rejected :
    GenerateRun newProjectId st w (Returned tt, {| store := w; ui := st; trace := [] |})
| run_anonymous :
    GenerateRun newProjectId st w
      (Returned tt, {| store := w; ui := st; trace := [EvAlert Text.pleaseSignIn] |})
| run_notReady :
    GenerateRun newProjectId st w
      (Returned tt, {| store := w; ui := st; trace := [EvAlert Text.notReady] |})
| run_failed w' e :
    GenerateRun newProjectId st w
      (Returned tt,
       {| store := w'; ui := withIsGenerating false st;
          trace := [EvConsoleLog (lit "Creating project:");
                    EvRequest (projectInsert newProjectId st);
                    EvSettled (projectInsert newProjectId st) (Some e);
                    EvConsoleError (lit "Failed to create project:");
                    EvConsoleError (lit "Generation failed:");
                    EvAlert (Text.createFailed ++ message e)] |})
| run_navigated w' encoded :
    encodeURIComponent (trim (inputValue st)) = Some encoded ->
    GenerateRun newProjectId st w
      (Returned tt,
       {| store := w'; ui := withIsGenerating true st;
          trace := [EvConsoleLog (lit "Creating project:");
                    EvRequest (projectInsert newProjectId st);
                    EvSettled (projectInsert newProjectId st) None;
                    EvConsoleLog (lit "Project created successfully:");
                    EvNavigate (canvasHref newProjectId encoded)] |})
| run_malformed w' :
    encodeURIComponent (trim (inputValue st)) = None ->
    GenerateRun newProjectId st w
      (Returned tt,
       {| store := w'; ui := withIsGenerating false st;
          trace := [EvConsoleLog (lit "Creating project:");
                    EvRequest (projectInsert newProjectId st);
                    EvSettled (projectInsert newProjectId st) None;
                    EvConsoleLog (lit "Project created successfully:");
                    EvConsoleError (lit "Generation failed:");
                    EvAlert uriErrorMessage] |}).

(** ** Reading traces and targets *)

(** The credit records a run asked the store to create. *)
Fixpoint creditInserts (t : list Event) : list (jsstring * Z) :=
  match t with
  | [] => []
  | EvRequest (InsertCredits uid amount) :: t' => (uid, amount) :: creditInserts t'
  | _ :: t' => creditInserts t'
  end.

(** The project records a run asked the store to create. *)
Fixpoint projectInserts (t : list Event) : list (jsstring * jsstring) :=
  match t with
  | [] => []
  | EvRequest (InsertProject id title) :: t' => (id, title) :: projectInserts t'
  | _ :: t' => projectInserts t'
  end.

(** The targets a run navigated to. *)
Fixpoint navigations (t : list Event) : list jsstring :=
  match t with
  | [] => []
  | EvNavigate href :: t' => href :: navigations t'
  | _ :: t' => navigations t'
  end.

(** The alerts a run showed. *)
Fixpoint alerts (t : list Event) : list jsstring :=
  match t with
  | [] => []
  | EvAlert msg :: t' => msg :: alerts t'
  | _ :: t' => alerts t'
  end.

Module Url.
(** The query parameters of a relative URL, as the editor view finds them:
    the text between the first [?] and the first [#], cut at every [&], each
    piece cut at its first [=].  Nothing is percent-decoded. *)

Fixpoint upTo (sep : N) (s : jsstring) : jsstring :=
  match s with
  | [] => []
  | c :: s' => if c =? sep then [] else c :: upTo sep s'
  end.

Fixpoint after (sep : N) (s : jsstring) : jsstring :=
  match s with
  | [] => []
  | c :: s' => if c =? sep then s' else after sep s'
  end.

Fixpoint splitOn (sep : N) (s : jsstring) : list jsstring :=
  match s with
  | [] => [[]]
  | c :: s' =>
      if c =? sep then [] :: splitOn sep s'
      else match splitOn sep s' with
           | piece :: pieces => (c :: piece) :: pieces
           | [] => [[c]]
           end
  end.

Definition search (href : jsstring) : jsstring := after 0x3F (upTo 0x23 href).

Definition queryParams (href : jsstring) : list (jsstring * jsstring) :=
  List.map (fun piece => (upTo 0x3D piece, after 0x3D piece)) (splitOn 0x26 (search href)).

(** Neither [#] nor [&]. *)
Definition plain (c : N) : bool := negb ((c =? 0x23) || (c =? 0x26)).

End Url.

(** The characters of a version-4 UUID as [uuidv4()] prints it: lower-case
    hexadecimal digits and [-]. *)
Definition isUuidChar (c : N) : bool :=
  ((0x30 <=? c) && (c <=? 0x39)) || ((0x61 <=? c) && (c <=? 0x66)) || (c =? 0x2D).

(** ** The answers of a run of [loadData] *)

(** The three queries of [loadData]. *)
Definition listingRead : Request := SelectProjects (lit "updated_at") false.
Definition creditRead (user : User) : Request := SelectCredits (lit "user_id") (user_id user).
Definition creditInsert (user : User) : Request := InsertCredits (user_id user) 1000.

Section Answers.
Context {W : Type}.
Implicit Types (sb : Supabase W) (w : W) (user : User).

(** The store after the two reads of [Promise.all]. *)
Definition afterListing sb w : W := snd (sb listingRead w).
Definition afterReads sb user w : W := snd (sb (creditRead user) (afterListing sb w)).

(** What the two reads and the insert are answered with. *)
Definition projectsResult sb w : Result (list Project) := fst (sb listingRead w).
Definition creditsResult sb user w : Result CreditsRow :=
  fst (sb (creditRead user) (afterListing sb w)).
Definition insertResult sb user w : Result CreditsRow :=
  fst (sb (creditInsert user) (afterReads sb user w)).

End Answers.

(** ** Varying one answer of the store *)

Section Vary.
Context {W : Type}.

(** The same store, except that the listing read is answered with [res]. *)
Definition withListing (supabase : Supabase W) (res : Result (list Project)) : Supabase W :=
  fun r =>
    match r return W -> Result (Row r) * W with
    | SelectProjects _ _ => fun w => (res, snd (supabase r w))
    | r' => supabase r'
    end.

End Vary.

(** ** The states the dashboard can be in *)

Section Reachability.
Variable instant : jsstring -> Z.
Variable W : Type.

(** The dashboard starts from the [useState] initial values; afterwards its
    state changes by a run of [loadData] (on mount and whenever [user] or
    [supabase] change), by a run of [handleGenerate], or by typing into the
    prompt input.  The handle, when there is one, is a store that honours
    ordered reads. *)
Inductive Reachable : State -> Prop :=
| reach_initial : Reachable initialState
| reach_loadData st user (supabase : option (Supabase W)) w :
    Reachable st ->
    (forall sb, supabase = Some sb -> honoursOrder instant sb) ->
    Reachable (stateAfter (loadData user supabase) st w)
| reach_handleGenerate st user (supabase : option (Supabase W)) newProjectId w :
    Reachable st ->
    Reachable (stateAfter (handleGenerate user supabase newProjectId) st w)
| reach_input st v (w : W) :
    Reachable st ->
    Reachable (stateAfter (setInputValue v) st w).

End Reachability.

(** ** Concrete inputs *)

Module Sample.

(** Timestamps written as decimal epoch milliseconds. *)
Definition epochMillis (s : jsstring) : Z :=
  Z.of_N (fold_left (fun acc c => acc * 10 + (c - 0x30)) s 0).

Definition u1 : User := {| user_id := lit "u1" |}.

Definition project (id title updated : String.string) : Project :=
  {| project_id := lit id; project_title := lit title;
     project_thumbnail := None; project_updated_at := lit updated |}.

(** No project rows, no credit rows. *)
Definition emptyDb : RefStore.Db :=
  {| RefStore.user_credits := ∅; RefStore.projects_tbl := []; RefStore.now := lit "1700" |}.

(** Four projects, and a credit record of 42 for u1. *)
Definition busyDb : RefStore.Db :=
  {| RefStore.user_credits := {[ lit "u1" := 42%Z ]};
     RefStore.projects_tbl :=
       [project "p1" "one" "1000"; project "p2" "two" "1400";
        project "p3" "three" "1200"; project "p4" "four" "1300"];
     RefStore.now := lit "1700" |}.

Definition store (faults : RefStore.Faults) : Supabase RefStore.Db :=
  RefStore.client epochMillis faults.

Definition networkError : PostgrestError :=
  {| message := lit "network error"; code := [] |}.

Definition typed (prompt : jsstring) : State := withInputValue prompt (withIsLoading false initialState).

Definition uuid : jsstring := lit "3f2b8c1e-9d4a-4e6f-8a1b-0c2d3e4f5a6b".

End Sample.


(** ** The rest of the dashboard *)

(** *** The prompt button and the project grid *)

Module View.

(* '生成中...' and '生成' *)
Definition generating : jsstring := [0x751F; 0x6210; 0x4E2D; 0x2E; 0x2E; 0x2E].
Definition generate : jsstring := [0x751F; 0x6210].

(** [disabled={!inputValue.trim() || isGenerating}], line 387. *)
Definition generateDisabled (st : State) : bool :=
  negb (truthy (trim (inputValue st))) || isGenerating st.

(** The label of the button, line 390. *)
Definition generateLabel (st : State) : jsstring :=
  if isGenerating st then generating else generate.

(** The count beside the heading, line 417:
    [user && !isLoading && (projects.length)]. *)
Definition projectCount (user : option User) (st : State) : option nat :=
  match user with
  | Some _ => if isLoading st then None else Some (length (projects st))
  | None => None
  end.

(** The "no projects yet" message is rendered, line 463:
    [user && projects.length === 0 && !isLoading]. *)
Definition showsEmptyMessage (user : option User) (st : State) : bool :=
  match user with
  | Some _ => (length (projects st) =? 0)%nat && negb (isLoading st)
  | None => false
  end.

(** The props of a [ProjectCard] and the target of the [Link] around it. *)
Record Card := {
  card_href : option jsstring;
  card_title : jsstring;
  card_date : jsstring;
  card_imageUrl : option jsstring
}.

(** [project.thumbnail || undefined] *)
Definition imageUrlOf (thumbnail : option jsstring) : option jsstring :=
  match thumbnail with
  | Some t => if truthy t then Some t else None
  | None => None
  end.

(* '示例项目' '2 分钟前编辑', '营销活动' '1 小时前编辑', '社交媒体素材' '昨天编辑' *)
Definition sampleCards : list Card :=
  [ {| card_href := None; card_title := [0x793A; 0x4F8B; 0x9879; 0x76EE];
       card_date := [0x32; 0x20; 0x5206; 0x949F; 0x524D; 0x7F16; 0x8F91];
       card_imageUrl := None |};
    {| card_href := None; card_title := [0x8425; 0x9500; 0x6D3B; 0x52A8];
       card_date := [0x31; 0x20; 0x5C0F; 0x65F6; 0x524D; 0x7F16; 0x8F91];
       card_imageUrl := None |};
    {| card_href := None; card_title := [0x793E; 0x4EA4; 0x5A92; 0x4F53; 0x7D20; 0x6750];
       card_date := [0x6628; 0x5929; 0x7F16; 0x8F91];
       card_imageUrl := None |} ].

End View.

(** *** formatDate *)

Module Dates.

(** The decimal digits of a [Decimal.uint]. *)
Fixpoint digits (u : Decimal.uint) : jsstring :=
  match u with
  | Decimal.Nil => []
  | Decimal.D0 u' => 0x30 :: digits u'
  | Decimal.D1 u' => 0x31 :: digits u'
  | Decimal.D2 u' => 0x32 :: digits u'
  | Decimal.D3 u' => 0x33 :: digits u'
  | Decimal.D4 u' => 0x34 :: digits u'
  | Decimal.D5 u' => 0x35 :: digits u'
  | Decimal.D6 u' => 0x36 :: digits u'
  | Decimal.D7 u' => 0x37 :: digits u'
  | Decimal.D8 u' => 0x38 :: digits u'
  | Decimal.D9 u' => 0x39 :: digits u'
  end.

(** What a template literal prints for an integer below 10^21 in absolute
    value. *)
Definition numberToString (n : Z) : jsstring :=
  match Z.to_int n with
  | Decimal.Pos u => digits u
  | Decimal.Neg u => 0x2D :: digits u
  end.

(* '刚刚编辑', ' 分钟前编辑', ' 小时前编辑', ' 天前编辑' *)
Definition justEdited : jsstring := [0x521A; 0x521A; 0x7F16; 0x8F91].
Definition minutesAgo : jsstring := [0x20; 0x5206; 0x949F; 0x524D; 0x7F16; 0x8F91].
Definition hoursAgo : jsstring := [0x20; 0x5C0F; 0x65F6; 0x524D; 0x7F16; 0x8F91].
Definition daysAgo : jsstring := [0x20; 0x5929; 0x524D; 0x7F16; 0x8F91].

Section FormatDate.
(** [new Date(dateString).getTime()]: the time value in milliseconds, or
    [None] for NaN (a text that is no date). *)
Variable getTime : jsstring -> option Z.
(** [date.toLocaleDateString('zh-CN')] of a valid date. *)
Variable toLocaleDateString : Z -> jsstring.

(** page.tsx, lines 223-236; [now] is [new Date().getTime()].  Time values
    are integers of at most 8.64e15 in absolute value, so the differences
    are exact, and [Math.floor] of the quotients agrees with [Z.div]
    wherever one of the four comparisons can hold.  With NaN every
    comparison is false and the invalid date prints as "Invalid Date". *)
Definition formatDate (now : Z) (dateString : jsstring) : jsstring :=
  match getTime dateString with
  | None => lit "Invalid Date"
  | Some date =>
      let diffInMs := (now - date)%Z in
      let diffInMins := (diffInMs / 60000)%Z in
      let diffInHours := (diffInMs / 3600000)%Z in
      let diffInDays := (diffInMs / 86400000)%Z in
      if (diffInMins <? 1)%Z then justEdited
      else if (diffInMins <? 60)%Z then numberToString diffInMins ++ minutesAgo
      else if (diffInHours <? 24)%Z then numberToString diffInHours ++ hoursAgo
      else if (diffInDays <? 7)%Z then numberToString diffInDays ++ daysAgo
      else toLocaleDateString date
  end.

(** The card of a stored project, lines 440-449. *)
Definition projectCard (now : Z) (project : Project) : View.Card :=
  {| View.card_href := Some (lit "/lovart/canvas?id=" ++ project_id project);
     View.card_title := project_title project;
     View.card_date := formatDate now (project_updated_at project);
     View.card_imageUrl := View.imageUrlOf (project_thumbnail project) |}.

(** The cards after the "new project" card, lines 424-460: none while
    loading; the first three stored projects when signed in; the three
    samples when signed out. *)
Definition projectCards (now : Z) (user : option User) (st : State) : list View.Card :=
  if isLoading st then []
  else match user with
       | Some _ => List.map (projectCard now) (slice0 3 (projects st))
       | None => View.sampleCards
       end.

End FormatDate.

End Dates.

(** *** The typing effect of the placeholder *)

Module Typewriter.

Definition placeholders : list jsstring :=
  [ (* '让 Lovart 为你自动生成内容或效果图吧' *)
    [0x8BA9; 0x20; 0x4C; 0x6F; 0x76; 0x61; 0x72; 0x74; 0x20; 0x4E3A; 0x4F60; 0x81EA;
     0x52A8; 0x751F; 0x6210; 0x5185; 0x5BB9; 0x6216; 0x6548; 0x679C; 0x56FE; 0x5427];
    (* '设计一个现代简约的 Logo' *)
    [0x8BBE; 0x8BA1; 0x4E00; 0x4E2A; 0x73B0; 0x4EE3; 0x7B80; 0x7EA6; 0x7684; 0x20;
     0x4C; 0x6F; 0x67; 0x6F];
    (* '创建一张社交媒体海报' *)
    [0x521B; 0x5EFA; 0x4E00; 0x5F20; 0x793E; 0x4EA4; 0x5A92; 0x4F53; 0x6D77; 0x62A5];
    (* '生成一个产品展示图' *)
    [0x751F; 0x6210; 0x4E00; 0x4E2A; 0x4EA7; 0x54C1; 0x5C55; 0x793A; 0x56FE];
    (* '制作一个品牌宣传图' *)
    [0x5236; 0x4F5C; 0x4E00; 0x4E2A; 0x54C1; 0x724C; 0x5BA3; 0x4F20; 0x56FE] ].

(** The timer that is pending. *)
Inductive Timer :=
| TypeAfter (ms : N)     (* setTimeout(type, ms) *)
| DeleteAfter (ms : N).  (* setTimeout(() => { isDeleting = true; type(); }, ms) *)

(** The two pieces of React state, the variables of the running effect's
    closure, the timer that is pending, and the time the timers that have
    fired took. *)
Record Machine := {
  placeholder : jsstring;
  placeholderIndex : nat;
  effectIndex : nat;        (* the placeholderIndex the effect ran for *)
  currentText : jsstring;
  currentIndex : nat;
  isDeleting : bool;
  timeout : option Timer;
  elapsed : N
}.

(** One call of [type], lines 150-168. *)
Definition type (m : Machine) : Machine :=
  if negb (isDeleting m) && (currentIndex m <=? length (currentText m))%nat then
    {| placeholder := slice0 (currentIndex m) (currentText m);
       placeholderIndex := placeholderIndex m; effectIndex := effectIndex m;
       currentText := currentText m;
       currentIndex := S (currentIndex m); isDeleting := isDeleting m;
       timeout := Some (TypeAfter 100); elapsed := elapsed m |}
  else if negb (isDeleting m) && (length (currentText m) <? currentIndex m)%nat then
    {| placeholder := placeholder m;
       placeholderIndex := placeholderIndex m; effectIndex := effectIndex m;
       currentText := currentText m;
       currentIndex := currentIndex m; isDeleting := isDeleting m;
       timeout := Some (DeleteAfter 2000); elapsed := elapsed m |}
  else if isDeleting m && (0 <? currentIndex m)%nat then
    {| placeholder := slice0 (Nat.pred (currentIndex m)) (currentText m);
       placeholderIndex := placeholderIndex m; effectIndex := effectIndex m;
       currentText := currentText m;
       currentIndex := Nat.pred (currentIndex m); isDeleting := isDeleting m;
       timeout := Some (TypeAfter 50); elapsed := elapsed m |}
  else if isDeleting m && (currentIndex m =? 0)%nat then
    {| placeholder := placeholder m;
       placeholderIndex := (placeholderIndex m + 1) mod length placeholders;
       effectIndex := effectIndex m;
       currentText := currentText m;
       currentIndex := currentIndex m; isDeleting := false;
       timeout := timeout m; elapsed := elapsed m |}
  else m.

(** The body of the effect, lines 144-173, for the current
    [placeholderIndex]: reading [.length] of [placeholders[i]] throws when
    [i] is out of range ([None]). *)
Definition effect (m : Machine) : option Machine :=
  match nth_error placeholders (placeholderIndex m) with
  | None => None
  | Some text =>
      Some (type {| placeholder := placeholder m;
                    placeholderIndex := placeholderIndex m;
                    effectIndex := placeholderIndex m;
                    currentText := text;
                    currentIndex := 0; isDeleting := false;
                    timeout := None; elapsed := elapsed m |})
  end.

(** The component mounts: [useState('')], [useState(0)], then the effect. *)
Definition mount : option Machine :=
  effect {| placeholder := []; placeholderIndex := 0; effectIndex := 0;
            currentText := []; currentIndex := 0; isDeleting := false;
            timeout := None; elapsed := 0 |}.

(** What happens next: the pending timer fires; or, no timer pending, the
    effect runs again if [placeholderIndex] is no longer the one it ran for
    (the dependency array of line 173).  [None]: nothing will happen. *)
Definition step (m : Machine) : option Machine :=
  match timeout m with
  | Some (TypeAfter ms) =>
      Some (type {| placeholder := placeholder m;
                    placeholderIndex := placeholderIndex m; effectIndex := effectIndex m;
                    currentText := currentText m;
                    currentIndex := currentIndex m; isDeleting := isDeleting m;
                    timeout := None; elapsed := elapsed m + ms |})
  | Some (DeleteAfter ms) =>
      Some (type {| placeholder := placeholder m;
                    placeholderIndex := placeholderIndex m; effectIndex := effectIndex m;
                    currentText := currentText m;
                    currentIndex := currentIndex m; isDeleting := true;
                    timeout := None; elapsed := elapsed m + ms |})
  | None =>
      if (placeholderIndex m =? effectIndex m)%nat then None else effect m
  end.

(** [n] steps. *)
Fixpoint steps (n : nat) (m : Machine) : option Machine :=
  match n with
  | O => Some m
  | S n' => match step m with
            | Some m' => steps n' m'
            | None => None
            end
  end.

(** The states the animation goes through. *)
Inductive Runs : Machine -> Prop :=
| runs_mount m : mount = Some m -> Runs m
| runs_step m m' : Runs m -> step m = Some m' -> Runs m'.

(** The states of one run of the effect for the text [text] at index [p],
    started when [e] milliseconds had passed: [k] code units typed and the
    next call of [type] due in 100 ms; everything typed and the pause of
    2000 ms pending; [k] code units left and the next deletion due in 50 ms;
    all deleted and [placeholderIndex] moved on. *)
Definition typed (p : nat) (text : jsstring) (e : N) (k : nat) : Machine :=
  {| placeholder := firstn k text; placeholderIndex := p; effectIndex := p;
     currentText := text; currentIndex := S k; isDeleting := false;
     timeout := Some (TypeAfter 100); elapsed := e + 100 * N.of_nat k |}.

Definition pausing (p : nat) (text : jsstring) (e : N) : Machine :=
  {| placeholder := text; placeholderIndex := p; effectIndex := p;
     currentText := text; currentIndex := S (length text); isDeleting := false;
     timeout := Some (DeleteAfter 2000);
     elapsed := e + 100 * N.of_nat (S (length text)) |}.

Definition deleted (p : nat) (text : jsstring) (e : N) (k : nat) : Machine :=
  {| placeholder := firstn k text; placeholderIndex := p; effectIndex := p;
     currentText := text; currentIndex := k; isDeleting := true;
     timeout := Some (TypeAfter 50);
     elapsed := e + 100 * N.of_nat (S (length text)) + 2000
                + 50 * N.of_nat (length text - k) |}.

Definition finished (p : nat) (text : jsstring) (e : N) : Machine :=
  {| placeholder := []; placeholderIndex := (p + 1) mod length placeholders;
     effectIndex := p;
     currentText := text; currentIndex := 0; isDeleting := false;
     timeout := None;
     elapsed := e + 2000 + 150 * N.of_nat (S (length text)) |}.

(** The machine is in one of these states, for one of the texts. *)
Inductive Phase : Machine -> Prop :=
| phase_typed p text e k :
    nth_error placeholders p = Some text -> (k <= length text)%nat ->
    Phase (typed p text e k)
| phase_pausing p text e :
    nth_error placeholders p = Some text -> Phase (pausing p text e)
| phase_deleted p text e k :
    nth_error placeholders p = Some text -> (k <= length text)%nat ->
    Phase (deleted p text e k)
| phase_finished p text e :
    nth_error placeholders p = Some text -> Phase (finished p text e).

End Typewriter.

(** *** The Data-Store Gateway of supabase.ts *)

Module Gateway.

(** What [createClient] is called with. *)
Record ClientOptions := {
  supabaseUrl : jsstring;
  supabaseKey : jsstring;
  globalHeaders : list (jsstring * jsstring)
}.

(** supabase.ts, lines 84-94; [url] and [anonKey] are the two values of
    [process.env]. *)
Definition createClerkSupabaseClient (url anonKey : jsstring) (token : option jsstring)
  : ClientOptions :=
  {| supabaseUrl := url; supabaseKey := anonKey;
     globalHeaders :=
       match token with
       | Some t => if truthy t then [(lit "Authorization", lit "Bearer " ++ t)] else []
       | None => []
       end |}.

(** supabase.ts, lines 99-104. *)
Definition createServerSupabaseClient (url anonKey : jsstring) : ClientOptions :=
  {| supabaseUrl := url; supabaseKey := anonKey; globalHeaders := [] |}.

End Gateway.

(** *** More readers of traces *)

(** The queries a run sent to the store, in order. *)
Fixpoint requests (t : list Event) : list Request :=
  match t with
  | [] => []
  | EvRequest r :: t' => r :: requests t'
  | _ :: t' => requests t'
  end.

(** The labels a run passed to [console.error]. *)
Fixpoint consoleErrors (t : list Event) : list jsstring :=
  match t with
  | [] => []
  | EvConsoleError label :: t' => label :: consoleErrors t'
  | _ :: t' => consoleErrors t'
  end.
(** * Properties *)

(** ** Strings *)

Example trim_demo :
  trim (lit "  Design a logo  ") = lit "Design a logo".
Proof. reflexivity. Qed.

Example encode_demo :
  encodeURIComponent (lit "Design a logo") = Some (lit "Design%20a%20logo").
Proof. reflexivity. Qed.

Example encode_cjk :
  encodeURIComponent [0x8BF7; 0xD83D; 0xDE00] =
  Some (lit "%E8%AF%B7%F0%9F%98%80").
Proof. reflexivity. Qed.

Example encode_lone_surrogate : encodeURIComponent [0xD800] = None.
Proof. reflexivity. Qed.

Lemma truthy_nonempty (s : jsstring) : truthy s = true <-> s <> [].
Proof. destruct s; simpl; split; congruence. Qed.

Lemma or_else_truthy (a b : jsstring) : truthy a = true -> or_else a b = a.
Proof. unfold or_else. now intros ->. Qed.

Lemma slice0_truthy (n : nat) (s : jsstring) :
  truthy s = true -> truthy (slice0 (S n) s) = true.
Proof. destruct s; simpl; congruence. Qed.

Lemma slice0_short {A} (n : nat) (s : list A) :
  (length s <= n)%nat -> slice0 n s = s.
Proof. intros H. unfold slice0. now apply firstn_all2. Qed.

Lemma projectTitle_truthy (inputValue : jsstring) : truthy (projectTitle inputValue) = true.
Proof.
  unfold projectTitle, or_else.
  destruct (truthy (slice0 50 (trim inputValue))) eqn:E; [exact E | reflexivity].
Qed.

(** ** The normal form of a run of [handleGenerate] *)

Section HandleGenerate.
Context {W : Type}.
Implicit Types (supabase : Supabase W) (st : State) (w : W).

Lemma handleGenerate_guarded user (sb : option (Supabase W)) newProjectId st w :
  truthy (trim (inputValue st)) = false \/ isGenerating st = true ->
  run (handleGenerate user sb newProjectId) st w =
  (Returned tt, {| store := w; ui := st; trace := [] |}).
Proof.
  intros H. unfold run, handleGenerate, bind, getState, ret. cbn.
  destruct H as [-> | ->]; [reflexivity |].
  now rewrite orb_true_r.
Qed.

Lemma handleGenerate_failed user supabase newProjectId st w e :
  submits st ->
  error (fst (supabase (projectInsert newProjectId st) w)) = Some e ->
  run (handleGenerate (Some user) (Some supabase) newProjectId) st w =
  (Returned tt,
   {| store := snd (supabase (projectInsert newProjectId st) w);
      ui := withIsGenerating false st;
      trace := [EvConsoleLog (lit "Creating project:");
                EvRequest (projectInsert newProjectId st);
                EvSettled (projectInsert newProjectId st) (Some e);
                EvConsoleError (lit "Failed to create project:");
                EvConsoleError (lit "Generation failed:");
                EvAlert (Text.createFailed ++ message e)] |}).
Proof.
  intros [Ht Hg] He. unfold projectInsert in *.
  unfold run, handleGenerate, bind, getState, ret. cbn.
  rewrite Ht, Hg. cbn.
  unfold tryCatch, await, answer, bind, emit, ret, throw, consoleLog, consoleError,
    alert, setIsGenerating, setState. cbn.
  destruct (supabase _ w) as [res w']. cbn in *. rewrite He. reflexivity.
Qed.

Lemma handleGenerate_navigates user supabase newProjectId st w encoded :
  submits st ->
  error (fst (supabase (projectInsert newProjectId st) w)) = None ->
  encodeURIComponent (trim (inputValue st)) = Some encoded ->
  run (handleGenerate (Some user) (Some supabase) newProjectId) st w =
  (Returned tt,
   {| store := snd (supabase (projectInsert newProjectId st) w);
      ui := withIsGenerating true st;
      trace := [EvConsoleLog (lit "Creating project:");
                EvRequest (projectInsert newProjectId st);
                EvSettled (projectInsert newProjectId st) None;
                EvConsoleLog (lit "Project created successfully:");
                EvNavigate (canvasHref newProjectId encoded)] |}).
Proof.
  intros [Ht Hg] He Henc. unfold projectInsert in *.
  unfold run, handleGenerate, bind, getState, ret. cbn.
  rewrite Ht, Hg. cbn.
  unfold tryCatch, await, answer, bind, emit, ret, throw, consoleLog, consoleError,
    alert, navigate, setIsGenerating, setState. cbn.
  destruct (supabase _ w) as [res w']. cbn in *. rewrite He, Henc. reflexivity.
Qed.

Lemma handleGenerate_malformed user supabase newProjectId st w :
  submits st ->
  error (fst (supabase (projectInsert newProjectId st) w)) = None ->
  encodeURIComponent (trim (inputValue st)) = None ->
  run (handleGenerate (Some user) (Some supabase) newProjectId) st w =
  (Returned tt,
   {| store := snd (supabase (projectInsert newProjectId st) w);
      ui := withIsGenerating false st;
      trace := [EvConsoleLog (lit "Creating project:");
                EvRequest (projectInsert newProjectId st);
                EvSettled (projectInsert newProjectId st) None;
                EvConsoleLog (lit "Project created successfully:");
                EvConsoleError (lit "Generation failed:");
                EvAlert uriErrorMessage] |}).
Proof.
  intros [Ht Hg] He Henc. unfold projectInsert in *.
  unfold run, handleGenerate, bind, getState, ret. cbn.
  rewrite Ht, Hg. cbn.
  unfold tryCatch, await, answer, bind, emit, ret, throw, consoleLog, consoleError,
    alert, navigate, setIsGenerating, setState. cbn.
  destruct (supabase _ w) as [res w']. cbn in *. rewrite He, Henc. reflexivity.
Qed.

Lemma handleGenerate_anonymous (sb : option (Supabase W)) newProjectId st w :
  submits st ->
  run (handleGenerate None sb newProjectId) st w =
  (Returned tt, {| store := w; ui := st; trace := [EvAlert Text.pleaseSignIn] |}).
Proof.
  intros [Ht Hg]. unfold run, handleGenerate, bind, getState, ret. cbn.
  rewrite Ht, Hg. reflexivity.
Qed.

Lemma handleGenerate_notReady user newProjectId st w :
  submits st ->
  run (handleGenerate (Some user) (@None (Supabase W)) newProjectId) st w =
  (Returned tt, {| store := w; ui := st; trace := [EvAlert Text.notReady] |}).
Proof.
  intros [Ht Hg]. unfold run, handleGenerate, bind, getState, ret. cbn.
  rewrite Ht, Hg. reflexivity.
Qed.

End HandleGenerate.

(** Every run of [handleGenerate] is one of the six of [GenerateRun]. *)
Lemma handleGenerate_cases {W} user (sb : option (Supabase W)) newProjectId st w :
  GenerateRun newProjectId st w (run (handleGenerate user sb newProjectId) st w).
Proof.
  destruct (truthy (trim (inputValue st))) eqn:Ht;
    [destruct (isGenerating st) eqn:Hg |].
  - rewrite handleGenerate_guarded by auto. constructor.
  - assert (Hs : submits st) by (split; assumption).
    destruct user as [user|]; [destruct sb as [sb|] |].
    + destruct (error (fst (sb (projectInsert newProjectId st) w))) as [e|] eqn:He.
      * rewrite (handleGenerate_failed _ _ _ _ _ e) by assumption. constructor.
      * destruct (encodeURIComponent (trim (inputValue st))) as [enc|] eqn:Henc.
        -- rewrite (handleGenerate_navigates _ _ _ _ _ enc) by assumption.
           now constructor.
        -- rewrite handleGenerate_malformed by assumption. now constructor.
    + rewrite handleGenerate_notReady by assumption. constructor.
    + rewrite handleGenerate_anonymous by assumption. constructor.
  - rewrite handleGenerate_guarded by auto. constructor.
Qed.

(** ** Trimming *)

Lemma trimStart_whitespace (s : jsstring) :
  forallb isWhiteSpace s = true -> trimStart s = [].
Proof.
  induction s as [|c s IH]; simpl; [reflexivity |].
  intros H. apply andb_true_iff in H as [-> Hs]. auto.
Qed.

Lemma trimStart_nil_whitespace (s : jsstring) :
  trimStart s = [] -> forallb isWhiteSpace s = true.
Proof.
  induction s as [|c s IH]; simpl; [reflexivity |].
  destruct (isWhiteSpace c); [auto | discriminate].
Qed.

(** The trimmed prompt is empty exactly when the prompt is empty or made of
    white space only. *)
Lemma trim_nil_iff (s : jsstring) :
  trim s = [] <-> forallb isWhiteSpace s = true.
Proof.
  unfold trim, trimEnd. split.
  - intros H. apply trimStart_nil_whitespace.
    destruct (trimStart s) as [|c s'] eqn:E; [reflexivity |].
    exfalso.
    assert (Hrev : trimStart (rev (c :: s')) = []).
    { apply (f_equal (@rev N)) in H. now rewrite rev_involutive in H. }
    apply trimStart_nil_whitespace in Hrev.
    rewrite forallb_forall in Hrev.
    assert (Hc : isWhiteSpace c = true) by (apply Hrev, in_rev; rewrite rev_involutive; now left).
    destruct s as [|d s]; simpl in E; [discriminate |].
    destruct (isWhiteSpace d) eqn:Ed.
    + clear - E Hc. revert E. induction s as [|x s IH]; simpl; [discriminate |].
      destruct (isWhiteSpace x) eqn:Ex; [exact IH |].
      intros [= -> _]. congruence.
    + injection E as -> _. congruence.
  - intros H. now rewrite (trimStart_whitespace s H).
Qed.

(** ** Project Creation Flow *)

(** C2.  When the trimmed prompt is not empty, the derived title is its
    first 50 code units, and the trimmed prompt itself when that has at most
    50; the title is never empty, the literal fallback standing in for an
    empty trimmed prompt; and the title of every project record that
    [handleGenerate] asks the store to create is this derived title. *)
Theorem C2_title_from_prompt (prompt : jsstring) :
  (truthy (trim prompt) = true -> projectTitle prompt = firstn 50 (trim prompt)) /\
  (truthy (trim prompt) = true -> (length (trim prompt) <= 50)%nat ->
   projectTitle prompt = trim prompt) /\
  projectTitle prompt <> [] /\
  (trim prompt = [] -> projectTitle prompt = Text.untitled) /\
  (forall W user (sb : option (Supabase W)) newProjectId st w id title,
     inputValue st = prompt ->
     In (id, title) (projectInserts (traceOf (handleGenerate user sb newProjectId) st w)) ->
     title = projectTitle prompt /\ title <> []).
Proof.
  assert (Hne : projectTitle prompt <> [])
    by (apply truthy_nonempty, projectTitle_truthy).
  split; [| split; [| split; [| split]]].
  - intros Ht. unfold projectTitle. apply or_else_truthy. now apply slice0_truthy.
  - intros Ht Hlen. unfold projectTitle.
    rewrite or_else_truthy by now apply slice0_truthy.
    now apply slice0_short.
  - exact Hne.
  - intros Hnil. unfold projectTitle. now rewrite Hnil.
  - intros W user sb newProjectId st w id title <- Hin.
  assert (Htitle : title = projectTitle (inputValue st)).
  { unfold traceOf in Hin.
    destruct (handleGenerate_cases user sb newProjectId st w); cbn in Hin;
      intuition congruence. }
  split; [exact Htitle |].
  rewrite Htitle. apply truthy_nonempty, projectTitle_truthy.
Qed.

Lemma C2_title_from_prompt_witness :
  projectTitle (lit "  Design a logo  ") = lit "Design a logo".
Proof.
  apply (proj1 (proj2 (C2_title_from_prompt (lit "  Design a logo  ")))).
  - reflexivity.
  - simpl. lia.
Defined.

(** C7.  When the prompt is empty or consists of white space only, and
    whenever a creation is already in flight, [handleGenerate] does nothing:
    no request reaches the store, nothing is shown or logged, there is no
    navigation, and neither the state of the component nor the store
    changes. *)
Theorem C7_rejected_submission_does_nothing {W} user (sb : option (Supabase W))
    newProjectId st w :
  forallb isWhiteSpace (inputValue st) = true \/ isGenerating st = true ->
  run (handleGenerate user sb newProjectId) st w =
    (Returned tt, {| store := w; ui := st; trace := [] |}) /\
  projectInserts (traceOf (handleGenerate user sb newProjectId) st w) = [] /\
  navigations (traceOf (handleGenerate user sb newProjectId) st w) = [] /\
  stateAfter (handleGenerate user sb newProjectId) st w = st /\
  storeAfter (handleGenerate user sb newProjectId) st w = w.
Proof.
  intros H.
  assert (Hrun : run (handleGenerate user sb newProjectId) st w =
                 (Returned tt, {| store := w; ui := st; trace := [] |})).
  { apply handleGenerate_guarded. destruct H as [H | H]; [left | now right].
    apply trim_nil_iff in H. now rewrite H. }
  unfold traceOf, stateAfter, storeAfter. rewrite Hrun. now repeat split.
Qed.

Lemma C7_rejected_submission_does_nothing_witness :
  run (handleGenerate (Some Sample.u1) (Some (Sample.store RefStore.noFaults)) Sample.uuid)
      (Sample.typed [0x20; 0x9; 0x3000]) Sample.emptyDb =
  (Returned tt,
   {| store := Sample.emptyDb; ui := Sample.typed [0x20; 0x9; 0x3000]; trace := [] |}).
Proof.
  apply (C7_rejected_submission_does_nothing (Some Sample.u1)
           (Some (Sample.store RefStore.noFaults)) Sample.uuid
           (Sample.typed [0x20; 0x9; 0x3000]) Sample.emptyDb).
  left. reflexivity.
Defined.

(** C4.  When a submission's insert fails with a store error whose message
    is M, exactly one alert is shown and its text is "创建项目失败: " followed
    by M; the in-flight flag is false afterwards, the rest of the state is
    as it was; and there is no navigation. *)
Theorem C4_insert_failure_is_surfaced {W} user (sb : Supabase W) newProjectId st w e :
  submits st ->
  error (fst (sb (projectInsert newProjectId st) w)) = Some e ->
  alerts (traceOf (handleGenerate (Some user) (Some sb) newProjectId) st w) =
    [Text.createFailed ++ message e] /\
  stateAfter (handleGenerate (Some user) (Some sb) newProjectId) st w =
    withIsGenerating false st /\
  isGenerating (stateAfter (handleGenerate (Some user) (Some sb) newProjectId) st w) = false /\
  navigations (traceOf (handleGenerate (Some user) (Some sb) newProjectId) st w) = [].
Proof.
  intros Hs He. unfold traceOf, stateAfter.
  rewrite (handleGenerate_failed user sb newProjectId st w e Hs He).
  now repeat split.
Qed.

Lemma C4_insert_failure_is_surfaced_witness :
  alerts (traceOf (handleGenerate (Some Sample.u1)
                     (Some (Sample.store (RefStore.insertsFail Sample.networkError)))
                     Sample.uuid)
            (Sample.typed (lit "Design a logo")) Sample.emptyDb) =
  [Text.createFailed ++ lit "network error"].
Proof.
  apply (C4_insert_failure_is_surfaced Sample.u1
           (Sample.store (RefStore.insertsFail Sample.networkError)) Sample.uuid
           (Sample.typed (lit "Design a logo")) Sample.emptyDb Sample.networkError).
  - split; reflexivity.
  - reflexivity.
Defined.

(** C10.  In every run of [handleGenerate], whatever precedes a navigation
    contains the request of the project insert and, after it, the event of
    that request settling without an error; no request has settled with an
    error, and nothing follows the navigation. *)
Theorem C10_insert_precedes_navigation {W} user (sb : option (Supabase W))
    newProjectId st w pre href post :
  traceOf (handleGenerate user sb newProjectId) st w = pre ++ EvNavigate href :: post ->
  (exists before between rest,
     pre = before ++ EvRequest (projectInsert newProjectId st) ::
           between ++ EvSettled (projectInsert newProjectId st) None :: rest) /\
  (forall r e, ~ In (EvSettled r (Some e)) pre) /\
  post = [].
Proof.
  unfold traceOf.
  destruct (handleGenerate_cases user sb newProjectId st w) as [| | | | ? ? _ |];
    cbn; intros Htr.
  1-4, 6:
    exfalso;
    assert (Hin : In (EvNavigate href) (pre ++ EvNavigate href :: post))
      by (apply in_or_app; right; now left);
    rewrite <- Htr in Hin; cbn in Hin; intuition discriminate.
  destruct pre as [|a [|b [|c [|d [|x pre]]]]]; cbn in Htr; try discriminate.
  - injection Htr as <- <- <- <- _ <-.
    split; [| split; [| reflexivity]].
    + exists [EvConsoleLog (lit "Creating project:")], [],
        [EvConsoleLog (lit "Project created successfully:")]. reflexivity.
    + intros r e' Hin. cbn in Hin. intuition discriminate.
  - injection Htr as _ _ _ _ _ Htr. destruct pre; discriminate.
Qed.

Lemma C10_insert_precedes_navigation_witness :
  exists before between rest,
    [EvConsoleLog (lit "Creating project:");
     EvRequest (projectInsert Sample.uuid (Sample.typed (lit "Design a logo")));
     EvSettled (projectInsert Sample.uuid (Sample.typed (lit "Design a logo"))) None;
     EvConsoleLog (lit "Project created successfully:")] =
    before ++ EvRequest (projectInsert Sample.uuid (Sample.typed (lit "Design a logo"))) ::
    between ++ EvSettled (projectInsert Sample.uuid (Sample.typed (lit "Design a logo"))) None ::
    rest.
Proof.
  apply (C10_insert_precedes_navigation (Some Sample.u1)
           (Some (Sample.store RefStore.noFaults)) Sample.uuid
           (Sample.typed (lit "Design a logo")) Sample.emptyDb _
           (canvasHref Sample.uuid (lit "Design%20a%20logo")) []).
  reflexivity.
Defined.

(** ** Percent-encoding *)

Ltac to_arith :=
  repeat match goal with
         | H : _ |- _ =>
             first [ rewrite orb_true_iff in H | rewrite andb_true_iff in H
                   | rewrite orb_false_iff in H | rewrite andb_false_iff in H
                   | rewrite negb_true_iff in H | rewrite negb_false_iff in H
                   | rewrite N.eqb_eq in H | rewrite N.eqb_neq in H
                   | rewrite N.leb_le in H | rewrite N.leb_gt in H
                   | rewrite N.ltb_lt in H | rewrite N.ltb_ge in H ]
         end;
  repeat first [ rewrite orb_true_iff | rewrite andb_true_iff
               | rewrite orb_false_iff | rewrite andb_false_iff
               | rewrite negb_true_iff | rewrite negb_false_iff
               | rewrite N.eqb_eq | rewrite N.eqb_neq
               | rewrite N.leb_le | rewrite N.leb_gt
               | rewrite N.ltb_lt | rewrite N.ltb_ge ].

(** Induction for functions that consume one or two code units a step. *)
Lemma jsstring_pair_ind (P : jsstring -> Prop) :
  P [] ->
  (forall c rest, P rest -> P (tl rest) -> P (c :: rest)) ->
  forall s, P s.
Proof.
  intros Hnil Hstep s.
  enough (H : P s /\ P (tl s)) by apply H.
  induction s as [|c rest [IH1 IH2]]; split; simpl; auto.
Qed.

Lemma unreserved_not_surrogate (c : N) :
  uriUnreserved c = true -> isLeadSurrogate c = false /\ isTrailSurrogate c = false.
Proof.
  unfold uriUnreserved, isAlnum, isMark, isLeadSurrogate, isTrailSurrogate.
  intros H. to_arith. lia.
Qed.

Lemma lead_not_trail (c : N) : isLeadSurrogate c = true -> isTrailSurrogate c = false.
Proof. unfold isLeadSurrogate, isTrailSurrogate. intros H. to_arith. lia. Qed.

(** [encodeURIComponent] returns exactly on the strings without an unpaired
    surrogate. *)
Lemma encodeURIComponent_returns (s : jsstring) :
  wellFormed s = true <-> exists encoded, encodeURIComponent s = Some encoded.
Proof.
  induction s as [|c rest IH1 IH2] using jsstring_pair_ind.
  - simpl. split; eauto.
  - simpl. destruct (uriUnreserved c) eqn:Eu.
    + destruct (unreserved_not_surrogate c Eu) as [-> ->]. simpl.
      rewrite IH1. split; intros [enc H].
      * rewrite H. simpl. eauto.
      * destruct (encodeURIComponent rest); [eauto | discriminate].
    + destruct (isLeadSurrogate c) eqn:El.
      * destruct rest as [|d rest']; [split; [discriminate | intros [? ?]; discriminate] |].
        simpl in IH2.
        destruct (isTrailSurrogate d); simpl;
          [| split; [discriminate | intros [? ?]; discriminate]].
        rewrite IH2. split; intros [enc H].
        -- rewrite H. simpl. eauto.
        -- destruct (encodeURIComponent rest'); [eauto | discriminate].
      * destruct (isTrailSurrogate c); simpl;
          [split; [discriminate | intros [? ?]; discriminate] |].
        rewrite IH1. split; intros [enc H].
        -- rewrite H. simpl. eauto.
        -- destruct (encodeURIComponent rest); [eauto | discriminate].
Qed.

Lemma plain_unreserved (c : N) : uriUnreserved c = true -> Url.plain c = true.
Proof.
  unfold uriUnreserved, isAlnum, isMark, Url.plain. intros H. to_arith. lia.
Qed.

Lemma plain_hexDigit (d : N) : Url.plain (hexDigit d) = true.
Proof.
  unfold Url.plain, hexDigit. destruct (d <? 10) eqn:E; to_arith; lia.
Qed.

Lemma plain_percent (octet : N) : forallb Url.plain (percent octet) = true.
Proof. unfold percent. simpl. now rewrite !plain_hexDigit. Qed.

Lemma plain_escapeCodePoint (cp : N) : forallb Url.plain (escapeCodePoint cp) = true.
Proof.
  unfold escapeCodePoint.
  induction (utf8 cp) as [|o os IH]; simpl; [reflexivity |].
  now rewrite !plain_hexDigit, IH.
Qed.

(** An encoded component holds neither [#] nor [&]. *)
Lemma plain_encodeURIComponent (s encoded : jsstring) :
  encodeURIComponent s = Some encoded -> forallb Url.plain encoded = true.
Proof.
  revert encoded.
  induction s as [|c rest IH1 IH2] using jsstring_pair_ind; intros encoded.
  - simpl. now intros [= <-].
  - simpl. destruct (uriUnreserved c) eqn:Eu.
    + destruct (encodeURIComponent rest) as [enc|]; [| discriminate].
      intros [= <-]. simpl. rewrite (plain_unreserved c Eu). now apply IH1.
    + destruct (isLeadSurrogate c).
      * destruct rest as [|d rest']; [discriminate |]. simpl in IH2.
        destruct (isTrailSurrogate d); [| discriminate].
        destruct (encodeURIComponent rest') as [enc|]; [| discriminate].
        intros [= <-]. rewrite forallb_app, plain_escapeCodePoint. now apply IH2.
      * destruct (isTrailSurrogate c); [discriminate |].
        destruct (encodeURIComponent rest) as [enc|]; [| discriminate].
        intros [= <-]. rewrite forallb_app, plain_escapeCodePoint. now apply IH1.
Qed.

Lemma plain_uuid (id : jsstring) :
  forallb isUuidChar id = true -> forallb Url.plain id = true.
Proof.
  induction id as [|c id IH]; simpl; [reflexivity |].
  intros H. apply andb_true_iff in H as [Hc Hid]. rewrite (IH Hid), andb_true_r.
  unfold isUuidChar in Hc. unfold Url.plain. to_arith. lia.
Qed.

(** ** Query parameters *)

Lemma plain_not_hash (c : N) : Url.plain c = true -> (c =? 0x23) = false.
Proof. unfold Url.plain. intros H. to_arith. lia. Qed.

Lemma plain_not_amp (c : N) : Url.plain c = true -> (c =? 0x26) = false.
Proof. unfold Url.plain. intros H. to_arith. lia. Qed.

Lemma upTo_hash_free (s : jsstring) :
  forallb (fun c => negb (c =? 0x23)) s = true -> Url.upTo 0x23 s = s.
Proof.
  induction s as [|c s IH]; simpl; [reflexivity |].
  intros H. apply andb_true_iff in H as [Hc Hs].
  apply negb_true_iff in Hc. now rewrite Hc, IH.
Qed.

Lemma plain_hash_free (s : jsstring) :
  forallb Url.plain s = true -> forallb (fun c => negb (c =? 0x23)) s = true.
Proof.
  induction s as [|c s IH]; simpl; [reflexivity |].
  intros H. apply andb_true_iff in H as [Hc Hs].
  now rewrite (plain_not_hash c Hc), IH.
Qed.

Lemma splitOn_amp_plain (s : jsstring) :
  forallb Url.plain s = true -> Url.splitOn 0x26 s = [s].
Proof.
  induction s as [|c s IH]; simpl; [reflexivity |].
  intros H. apply andb_true_iff in H as [Hc Hs].
  now rewrite (plain_not_amp c Hc), IH.
Qed.

Lemma splitOn_amp_app (a b : jsstring) :
  forallb Url.plain a = true ->
  Url.splitOn 0x26 (a ++ 0x26 :: b) = a :: Url.splitOn 0x26 b.
Proof.
  induction a as [|c a IH]; simpl; [reflexivity |].
  intros H. apply andb_true_iff in H as [Hc Ha].
  now rewrite (plain_not_amp c Hc), IH.
Qed.

(** The redirect target carries [id] and [prompt], and nothing else. *)
Lemma queryParams_canvasHref (newProjectId encoded : jsstring) :
  forallb Url.plain newProjectId = true ->
  forallb Url.plain encoded = true ->
  Url.queryParams (canvasHref newProjectId encoded) =
  [(lit "id", newProjectId); (lit "prompt", encoded)].
Proof.
  intros Hid Henc. unfold Url.queryParams, Url.search, canvasHref.
  rewrite upTo_hash_free
    by (rewrite !forallb_app, (plain_hash_free _ Hid), (plain_hash_free _ Henc);
        reflexivity).
  change (Url.after 0x3F (lit "/lovart/canvas?id=" ++ newProjectId ++ lit "&prompt=" ++ encoded))
    with ((lit "id=" ++ newProjectId) ++ 0x26 :: (lit "prompt=" ++ encoded)).
  rewrite splitOn_amp_app by (rewrite forallb_app, Hid; reflexivity).
  rewrite splitOn_amp_plain by (rewrite forallb_app, Henc; reflexivity).
  reflexivity.
Qed.

(** When a submission's insert succeeds and the trimmed prompt holds no
    unpaired surrogate, [handleGenerate] ends by assigning
    [window.location.href] the editor path whose query parameters are exactly
    [id], the client-generated project id, and [prompt], the whole trimmed
    prompt percent-encoded (not the title cut at 50); the in-flight flag is
    still true when the navigation is initiated and the rest of the state is
    as it was. *)
Lemma handleGenerate_success_navigates {W} user (sb : Supabase W) newProjectId st w :
  submits st ->
  error (fst (sb (projectInsert newProjectId st) w)) = None ->
  wellFormed (trim (inputValue st)) = true ->
  exists encoded,
    encodeURIComponent (trim (inputValue st)) = Some encoded /\
    (exists earlier,
       traceOf (handleGenerate (Some user) (Some sb) newProjectId) st w =
       earlier ++ [EvNavigate (canvasHref newProjectId encoded)] /\
       navigations earlier = []) /\
    stateAfter (handleGenerate (Some user) (Some sb) newProjectId) st w =
      withIsGenerating true st /\
    isGenerating (stateAfter (handleGenerate (Some user) (Some sb) newProjectId) st w) = true /\
    (forallb isUuidChar newProjectId = true ->
     Url.queryParams (canvasHref newProjectId encoded) =
     [(lit "id", newProjectId); (lit "prompt", encoded)]).
Proof.
  intros Hs He Hwf.
  apply encodeURIComponent_returns in Hwf as [encoded Henc].
  exists encoded. unfold traceOf, stateAfter.
  rewrite (handleGenerate_navigates user sb newProjectId st w encoded Hs He Henc).
  cbn [snd trace ui]. repeat split.
  - exact Henc.
  - eexists [_; _; _; _]. split; reflexivity.
  - intros Hid. apply queryParams_canvasHref.
    + now apply plain_uuid.
    + now apply (plain_encodeURIComponent _ _ Henc).
Qed.

(** A prompt of sixty letters: the title is cut at fifty, the [prompt]
    parameter is not. *)
Example long_prompt :
  let prompt := repeat 0x61 60 in
  projectInserts
    (traceOf (handleGenerate (Some Sample.u1) (Some (Sample.store RefStore.noFaults))
                Sample.uuid) (Sample.typed prompt) Sample.emptyDb) =
    [(Sample.uuid, repeat 0x61 50)] /\
  navigations
    (traceOf (handleGenerate (Some Sample.u1) (Some (Sample.store RefStore.noFaults))
                Sample.uuid) (Sample.typed prompt) Sample.emptyDb) =
    [canvasHref Sample.uuid (repeat 0x61 60)].
Proof. split; reflexivity. Qed.

(** The scenario of the specification: the prompt "  Design a logo  ". *)
Example design_a_logo :
  run (handleGenerate (Some Sample.u1) (Some (Sample.store RefStore.noFaults)) Sample.uuid)
      (Sample.typed (lit "  Design a logo  ")) Sample.emptyDb =
  (Returned tt,
   {| store :=
        {| RefStore.user_credits := ∅;
           RefStore.projects_tbl :=
             [{| project_id := Sample.uuid; project_title := lit "Design a logo";
                 project_thumbnail := None; project_updated_at := lit "1700" |}];
           RefStore.now := lit "1700" |};
      ui := withIsGenerating true (Sample.typed (lit "  Design a logo  "));
      trace :=
        [EvConsoleLog (lit "Creating project:");
         EvRequest (InsertProject Sample.uuid (lit "Design a logo"));
         EvSettled (InsertProject Sample.uuid (lit "Design a logo")) None;
         EvConsoleLog (lit "Project created successfully:");
         EvNavigate
           (lit "/lovart/canvas?id=3f2b8c1e-9d4a-4e6f-8a1b-0c2d3e4f5a6b&prompt=Design%20a%20logo")]
   |}).
Proof. reflexivity. Qed.

(** C3.  A submission whose insert succeeds is to end in the navigation to
    the editor, with the in-flight flag left set.  On a prompt with an
    unpaired surrogate the code does not: the insert succeeds and the row is
    in the store, then [encodeURIComponent] throws inside the [try], the
    catch block written for the failed insert shows the error's message and
    clears the in-flight flag, and nothing is navigated to. *)
Theorem C3_unpaired_surrogate_blocks_navigation :
  submits (Sample.typed [0xD83D]) /\
  error (fst (Sample.store RefStore.noFaults
                (projectInsert Sample.uuid (Sample.typed [0xD83D])) Sample.emptyDb)) = None /\
  List.map project_id
    (RefStore.projects_tbl
       (storeAfter (handleGenerate (Some Sample.u1) (Some (Sample.store RefStore.noFaults))
                      Sample.uuid)
          (Sample.typed [0xD83D]) Sample.emptyDb)) = [Sample.uuid] /\
  navigations
    (traceOf (handleGenerate (Some Sample.u1) (Some (Sample.store RefStore.noFaults))
                Sample.uuid)
       (Sample.typed [0xD83D]) Sample.emptyDb) = [] /\
  alerts
    (traceOf (handleGenerate (Some Sample.u1) (Some (Sample.store RefStore.noFaults))
                Sample.uuid)
       (Sample.typed [0xD83D]) Sample.emptyDb) = [uriErrorMessage] /\
  isGenerating
    (stateAfter (handleGenerate (Some Sample.u1) (Some (Sample.store RefStore.noFaults))
                   Sample.uuid)
       (Sample.typed [0xD83D]) Sample.emptyDb) = false.
Proof. repeat split. Qed.

(** ** The normal form of a run of [loadData] *)

Section LoadData.
Context {W : Type}.
Implicit Types (sb : Supabase W) (st : State) (w : W) (user : User).

Ltac load_unfold :=
  unfold run, loadData, tryFinally, tryCatch, awaitAll2, await, answer, bind, emit, ret,
    throw, consoleError, setProjects, setCredits, setIsLoading, setState,
    projectsResult, creditsResult, insertResult, afterReads, afterListing,
    listingRead, creditRead, creditInsert in *;
  cbn in *.

Lemma loadData_idle (user : option User) (sb : option (Supabase W)) st w :
  user = None \/ sb = None ->
  run (loadData user sb) st w =
  (Returned tt, {| store := w; ui := withIsLoading false st; trace := [] |}).
Proof.
  intros [-> | ->]; [| destruct user]; reflexivity.
Qed.

Lemma loadData_listing_failed user sb st w e :
  error (projectsResult sb w) = Some e ->
  run (loadData (Some user) (Some sb)) st w =
  (Returned tt,
   {| store := afterReads sb user w;
      ui := withIsLoading false st;
      trace := [EvRequest listingRead; EvRequest (creditRead user);
                EvSettled listingRead (Some e);
                EvSettled (creditRead user) (error (creditsResult sb user w));
                EvConsoleError (lit "Failed to load data:")] |}).
Proof.
  intros He. load_unfold.
  destruct (sb _ w) as [pr w1]. cbn in *.
  destruct (sb _ w1) as [cr w2]. cbn in *.
  rewrite He. reflexivity.
Qed.

Lemma loadData_credits_read user sb st w :
  error (projectsResult sb w) = None ->
  error (creditsResult sb user w) = None ->
  run (loadData (Some user) (Some sb)) st w =
  (Returned tt,
   {| store := afterReads sb user w;
      ui := withIsLoading false
              (withCredits (num_or (data (creditsResult sb user w) ≫= row_credits) 0)
                 (withProjects (default [] (data (projectsResult sb w))) st));
      trace := [EvRequest listingRead; EvRequest (creditRead user);
                EvSettled listingRead None;
                EvSettled (creditRead user) None] |}).
Proof.
  intros Hp Hc. load_unfold.
  destruct (sb _ w) as [pr w1]. cbn in *.
  destruct (sb _ w1) as [cr w2]. cbn in *.
  rewrite Hp, Hc. reflexivity.
Qed.

Lemma loadData_bootstrap user sb st w e :
  error (projectsResult sb w) = None ->
  error (creditsResult sb user w) = Some e ->
  code e = Text.PGRST116 ->
  run (loadData (Some user) (Some sb)) st w =
  (Returned tt,
   {| store := snd (sb (creditInsert user) (afterReads sb user w));
      ui := withIsLoading false
              (withCredits (num_or (data (insertResult sb user w) ≫= row_credits) 1000)
                 (withProjects (default [] (data (projectsResult sb w))) st));
      trace := [EvRequest listingRead; EvRequest (creditRead user);
                EvSettled listingRead None;
                EvSettled (creditRead user) (Some e);
                EvRequest (creditInsert user);
                EvSettled (creditInsert user) (error (insertResult sb user w))] |}).
Proof.
  intros Hp Hc Hcode. load_unfold.
  destruct (sb _ w) as [pr w1]. cbn in *.
  destruct (sb _ w1) as [cr w2]. cbn in *.
  rewrite Hp, Hc. unfold isNoRows. rewrite bool_decide_eq_true_2 by exact Hcode.
  cbn. destruct (sb _ w2) as [ir w3]. reflexivity.
Qed.

Lemma loadData_credits_failed user sb st w e :
  error (projectsResult sb w) = None ->
  error (creditsResult sb user w) = Some e ->
  code e <> Text.PGRST116 ->
  run (loadData (Some user) (Some sb)) st w =
  (Returned tt,
   {| store := afterReads sb user w;
      ui := withIsLoading false (withProjects (default [] (data (projectsResult sb w))) st);
      trace := [EvRequest listingRead; EvRequest (creditRead user);
                EvSettled listingRead None;
                EvSettled (creditRead user) (Some e)] |}).
Proof.
  intros Hp Hc Hcode. load_unfold.
  destruct (sb _ w) as [pr w1]. cbn in *.
  destruct (sb _ w1) as [cr w2]. cbn in *.
  rewrite Hp, Hc. unfold isNoRows. rewrite bool_decide_eq_false_2 by exact Hcode.
  reflexivity.
Qed.

End LoadData.

(** ** Credit Bootstrap Flow *)

Lemma num_or_zero (B : Z) : num_or (Some B) 0 = B.
Proof. simpl. destruct (Z.eqb_spec B 0); congruence. Qed.

Section CreditBootstrap.
Context {W : Type}.
Implicit Types (sb : Supabase W) (st : State) (w : W) (user : User).

(** A credit insert is only ever requested by a signed-in run whose listing
    read did not fail and whose credit read was answered with PGRST116. *)
Lemma creditInserts_loadData (user : option User) (sb : option (Supabase W)) st w uid amount :
  In (uid, amount) (creditInserts (traceOf (loadData user sb) st w)) ->
  exists u s e,
    user = Some u /\ sb = Some s /\ uid = user_id u /\ amount = 1000%Z /\
    error (projectsResult s w) = None /\
    error (creditsResult s u w) = Some e /\ code e = Text.PGRST116.
Proof.
  unfold traceOf. destruct user as [u|]; [destruct sb as [s|] |].
  2,3: rewrite loadData_idle by auto; cbn; tauto.
  destruct (error (projectsResult s w)) as [e|] eqn:Hp.
  { rewrite (loadData_listing_failed u s st w e Hp). cbn. tauto. }
  destruct (error (creditsResult s u w)) as [e|] eqn:Hc.
  2:{ rewrite (loadData_credits_read u s st w Hp Hc). cbn. tauto. }
  destruct (decide (code e = Text.PGRST116)) as [Hcode | Hcode].
  2:{ rewrite (loadData_credits_failed u s st w e Hp Hc Hcode). cbn. tauto. }
  rewrite (loadData_bootstrap u s st w e Hp Hc Hcode). cbn.
  intros [[= <- <-] | []]. exists u, s, e. auto 10.
Qed.

(** C5, as the code has it.  When the listing read did not fail and the
    single-row credit read is answered with error code PGRST116 (no record
    for the identity), [loadData] requests exactly one insert, of that
    identity with balance 1000, and, the store answering an insert with the
    inserted row or with none, adopts 1000.  In no run is a credit insert
    requested unless the credit read was answered with PGRST116: never on
    another error, never after a read that found a record. *)
Theorem C5_bootstrap_inserts_once user sb st w e :
  error (projectsResult sb w) = None ->
  error (creditsResult sb user w) = Some e ->
  code e = Text.PGRST116 ->
  (forall row, data (insertResult sb user w) = Some row -> row_credits row = Some 1000%Z) ->
  creditInserts (traceOf (loadData (Some user) (Some sb)) st w) = [(user_id user, 1000%Z)] /\
  credits (stateAfter (loadData (Some user) (Some sb)) st w) = Some 1000%Z /\
  (forall (user' : option User) (sb' : option (Supabase W)) st' w' uid amount,
     In (uid, amount) (creditInserts (traceOf (loadData user' sb') st' w')) ->
     exists u s e',
       user' = Some u /\ sb' = Some s /\ uid = user_id u /\ amount = 1000%Z /\
       error (projectsResult s w') = None /\
       error (creditsResult s u w') = Some e' /\ code e' = Text.PGRST116).
Proof.
  intros Hp Hc Hcode Hrow. unfold traceOf, stateAfter.
  rewrite (loadData_bootstrap user sb st w e Hp Hc Hcode). cbn.
  split; [reflexivity |]. split.
  - destruct (data (insertResult sb user w)) as [row|] eqn:Hd; cbn; [| reflexivity].
    now rewrite (Hrow row eq_refl).
  - intros. now apply creditInserts_loadData with (st := st') (w := w').
Qed.

(** C6, as the code has it.  When the conditional insert is issued (the
    listing read did not fail, the credit read was answered with PGRST116),
    its outcome is not inspected: the run returns, nothing is logged or
    shown after the insert has settled, and a balance is adopted whether
    the insert succeeded or not: the credits of the returned row when there
    is one and it is not zero, otherwise 1000.  In particular a failed
    insert, which returns no row, leaves 1000 adopted. *)
Theorem C6_insert_outcome_is_ignored user sb st w e :
  error (projectsResult sb w) = None ->
  error (creditsResult sb user w) = Some e ->
  code e = Text.PGRST116 ->
  fst (run (loadData (Some user) (Some sb)) st w) = Returned tt /\
  traceOf (loadData (Some user) (Some sb)) st w =
    [EvRequest listingRead; EvRequest (creditRead user);
     EvSettled listingRead None; EvSettled (creditRead user) (Some e);
     EvRequest (creditInsert user);
     EvSettled (creditInsert user) (error (insertResult sb user w))] /\
  credits (stateAfter (loadData (Some user) (Some sb)) st w) =
    Some (num_or (data (insertResult sb user w) ≫= row_credits) 1000) /\
  (data (insertResult sb user w) = None ->
   credits (stateAfter (loadData (Some user) (Some sb)) st w) = Some 1000%Z).
Proof.
  intros Hp Hc Hcode. unfold traceOf, stateAfter.
  rewrite (loadData_bootstrap user sb st w e Hp Hc Hcode). cbn.
  repeat split. now intros ->.
Qed.

(** C8, as the code has it.  When the listing read did not fail and the
    credit read is answered with the identity's record, of balance B,
    [loadData] requests no insert and the balance shown is B. *)
Theorem C8_existing_balance_is_shown user sb st w B :
  error (projectsResult sb w) = None ->
  creditsResult sb user w = {| data := Some {| row_credits := Some B |}; error := None |} ->
  creditInserts (traceOf (loadData (Some user) (Some sb)) st w) = [] /\
  credits (stateAfter (loadData (Some user) (Some sb)) st w) = Some B /\
  creditsDisplay (Some user) (stateAfter (loadData (Some user) (Some sb)) st w) = Some B.
Proof.
  intros Hp Hc. unfold traceOf, stateAfter.
  rewrite (loadData_credits_read user sb st w Hp) by now rewrite Hc.
  cbn. rewrite Hc. cbn [data mbind option_bind row_credits].
  rewrite num_or_zero. now repeat split.
Qed.

End CreditBootstrap.

(** *** On the reference store *)

Section OnRefStore.
Variable instant : jsstring -> Z.
Implicit Types (faults : RefStore.Faults) (db : RefStore.Db) (user : User).

Lemma RefStore_afterListing faults db :
  afterListing (RefStore.client instant faults) db = db.
Proof.
  unfold afterListing, RefStore.client. now destruct (faults listingRead).
Qed.

Lemma RefStore_afterReads faults db user :
  afterReads (RefStore.client instant faults) user db = db.
Proof.
  unfold afterReads. rewrite RefStore_afterListing. unfold RefStore.client.
  destruct (faults (creditRead user)); [reflexivity |]. cbn.
  now destruct (RefStore.user_credits db !! user_id user).
Qed.

(** No record for the identity: the single-row read is answered with
    PGRST116. *)
Lemma RefStore_read_missing faults db user :
  RefStore.user_credits db !! user_id user = None ->
  faults (creditRead user) = None ->
  creditsResult (RefStore.client instant faults) user db = RefStore.failed RefStore.noRows.
Proof.
  intros Hnone Hf. unfold creditsResult. rewrite RefStore_afterListing.
  unfold RefStore.client. rewrite Hf. cbn. now rewrite Hnone.
Qed.

(** A record of balance B: the single-row read is answered with it. *)
Lemma RefStore_read_existing faults db user B :
  RefStore.user_credits db !! user_id user = Some B ->
  faults (creditRead user) = None ->
  creditsResult (RefStore.client instant faults) user db =
    RefStore.ok {| row_credits := Some B |}.
Proof.
  intros Hsome Hf. unfold creditsResult. rewrite RefStore_afterListing.
  unfold RefStore.client. rewrite Hf. cbn. now rewrite Hsome.
Qed.

(** An insert is answered with the inserted row, or with none. *)
Lemma RefStore_insert_row faults db user row :
  data (insertResult (RefStore.client instant faults) user db) = Some row ->
  row_credits row = Some 1000%Z.
Proof.
  unfold insertResult. rewrite RefStore_afterReads. unfold RefStore.client.
  destruct (faults (creditInsert user)); [discriminate |]. cbn.
  destruct (RefStore.user_credits db !! user_id user); [discriminate |].
  now intros [= <-].
Qed.

Lemma RefStore_listing_answered faults db :
  faults listingRead = None ->
  error (projectsResult (RefStore.client instant faults) db) = None.
Proof. intros Hf. unfold projectsResult, RefStore.client. now rewrite Hf. Qed.

(** First load of an identity without a record, nothing failing: one record
    is created, with balance 1000; the other records and the projects are
    untouched; 1000 is adopted. *)
Lemma RefStore_first_load db user st :
  RefStore.user_credits db !! user_id user = None ->
  let after := run (loadData (Some user) (Some (RefStore.client instant RefStore.noFaults)))
                 st db in
  RefStore.user_credits (store (snd after)) = <[user_id user := 1000%Z]> (RefStore.user_credits db) /\
  RefStore.projects_tbl (store (snd after)) = RefStore.projects_tbl db /\
  creditInserts (trace (snd after)) = [(user_id user, 1000%Z)] /\
  credits (ui (snd after)) = Some 1000%Z.
Proof.
  intros Hnone after. subst after.
  rewrite (loadData_bootstrap user _ st db RefStore.noRows).
  - cbn [snd store ui trace]. rewrite RefStore_afterReads.
    unfold insertResult. rewrite RefStore_afterReads.
    unfold RefStore.client. cbn. rewrite Hnone. cbn. now repeat split.
  - now apply RefStore_listing_answered.
  - now rewrite RefStore_read_missing.
  - reflexivity.
Qed.

(** Load of an identity with a record of balance B, nothing failing: the
    store is left as it was and B is adopted. *)
Lemma RefStore_later_load db user st B :
  RefStore.user_credits db !! user_id user = Some B ->
  let after := run (loadData (Some user) (Some (RefStore.client instant RefStore.noFaults)))
                 st db in
  store (snd after) = db /\
  creditInserts (trace (snd after)) = [] /\
  credits (ui (snd after)) = Some B.
Proof.
  intros Hsome after. subst after.
  rewrite loadData_credits_read.
  - cbn [snd store ui trace]. rewrite RefStore_afterReads.
    rewrite (RefStore_read_existing _ _ _ B) by auto.
    cbn. destruct (Z.eqb_spec B 0); subst; now repeat split.
  - now apply RefStore_listing_answered.
  - now rewrite (RefStore_read_existing _ _ _ B).
Qed.

End OnRefStore.

(** The scenario of the specification: identity u1 without project rows and
    without a credit row loads the dashboard. *)
Example first_load_u1 :
  run (loadData (Some Sample.u1) (Some (Sample.store RefStore.noFaults)))
      initialState Sample.emptyDb =
  (Returned tt,
   {| store := {| RefStore.user_credits := {[ lit "u1" := 1000%Z ]};
                  RefStore.projects_tbl := []; RefStore.now := lit "1700" |};
      ui := {| projects := []; isLoading := false; credits := Some 1000%Z;
               inputValue := []; isGenerating := false |};
      trace := [EvRequest listingRead; EvRequest (creditRead Sample.u1);
                EvSettled listingRead None;
                EvSettled (creditRead Sample.u1) (Some RefStore.noRows);
                EvRequest (creditInsert Sample.u1);
                EvSettled (creditInsert Sample.u1) None] |}).
Proof. vm_compute. reflexivity. Qed.

Lemma C5_bootstrap_inserts_once_witness :
  creditInserts
    (traceOf (loadData (Some Sample.u1) (Some (Sample.store RefStore.noFaults)))
       initialState Sample.emptyDb) = [(lit "u1", 1000%Z)] /\
  credits
    (stateAfter (loadData (Some Sample.u1) (Some (Sample.store RefStore.noFaults)))
       initialState Sample.emptyDb) = Some 1000%Z.
Proof.
  pose proof (C5_bootstrap_inserts_once Sample.u1 (Sample.store RefStore.noFaults)
                initialState Sample.emptyDb RefStore.noRows) as H.
  destruct H as (H1 & H2 & _).
  - reflexivity.
  - reflexivity.
  - reflexivity.
  - intros row Hrow. vm_compute in Hrow. injection Hrow as <-. reflexivity.
  - split; [exact H1 | exact H2].
Defined.

(** C5, as the specification words it, fails when the listing read fails:
    identity u1 has no credit record, and yet no insert is requested and no
    balance is adopted. *)
Lemma C5_counterexample :
  RefStore.user_credits Sample.emptyDb !! lit "u1" = None /\
  creditInserts
    (traceOf (loadData (Some Sample.u1)
                (Some (Sample.store (RefStore.listingFails Sample.networkError))))
       initialState Sample.emptyDb) = [] /\
  credits
    (stateAfter (loadData (Some Sample.u1)
                   (Some (Sample.store (RefStore.listingFails Sample.networkError))))
       initialState Sample.emptyDb) = None.
Proof. repeat split. Qed.

Lemma C6_insert_outcome_is_ignored_witness :
  credits
    (stateAfter (loadData (Some Sample.u1)
                   (Some (Sample.store (RefStore.insertsFail Sample.networkError))))
       initialState Sample.emptyDb) = Some 1000%Z.
Proof.
  apply (C6_insert_outcome_is_ignored Sample.u1
           (Sample.store (RefStore.insertsFail Sample.networkError))
           initialState Sample.emptyDb RefStore.noRows).
  - reflexivity.
  - reflexivity.
  - reflexivity.
  - reflexivity.
Defined.

(** C6, as the specification words it, fails: the credit read finds no row,
    the insert fails, and a balance of 1000 is adopted all the same. *)
Lemma C6_counterexample :
  error (creditsResult (Sample.store (RefStore.insertsFail Sample.networkError))
           Sample.u1 Sample.emptyDb) = Some RefStore.noRows /\
  error (insertResult (Sample.store (RefStore.insertsFail Sample.networkError))
           Sample.u1 Sample.emptyDb) = Some Sample.networkError /\
  credits
    (stateAfter (loadData (Some Sample.u1)
                   (Some (Sample.store (RefStore.insertsFail Sample.networkError))))
       initialState Sample.emptyDb) = Some 1000%Z /\
  creditsDisplay (Some Sample.u1)
    (stateAfter (loadData (Some Sample.u1)
                   (Some (Sample.store (RefStore.insertsFail Sample.networkError))))
       initialState Sample.emptyDb) <> None.
Proof. repeat split. discriminate. Qed.

Lemma C8_existing_balance_is_shown_witness :
  creditInserts
    (traceOf (loadData (Some Sample.u1) (Some (Sample.store RefStore.noFaults)))
       initialState Sample.busyDb) = [] /\
  credits
    (stateAfter (loadData (Some Sample.u1) (Some (Sample.store RefStore.noFaults)))
       initialState Sample.busyDb) = Some 42%Z /\
  creditsDisplay (Some Sample.u1)
    (stateAfter (loadData (Some Sample.u1) (Some (Sample.store RefStore.noFaults)))
       initialState Sample.busyDb) = Some 42%Z.
Proof.
  apply (C8_existing_balance_is_shown Sample.u1 (Sample.store RefStore.noFaults)
           initialState Sample.busyDb 42%Z).
  - reflexivity.
  - reflexivity.
Defined.

(** C8, as the specification words it, fails when the listing read fails:
    identity u1 has a record of balance 42, and no balance is shown. *)
Lemma C8_counterexample :
  RefStore.user_credits Sample.busyDb !! lit "u1" = Some 42%Z /\
  creditsDisplay (Some Sample.u1)
    (stateAfter (loadData (Some Sample.u1)
                   (Some (Sample.store (RefStore.listingFails Sample.networkError))))
       initialState Sample.busyDb) = None.
Proof. repeat split. Qed.

(** ** Independence of the two flows *)

Section Independence.
Context {W : Type}.
Implicit Types (sb : Supabase W) (st : State) (w : W) (user : User).

Lemma withListing_projectsResult sb res w : projectsResult (withListing sb res) w = res.
Proof. reflexivity. Qed.

Lemma withListing_creditsResult sb res user w :
  creditsResult (withListing sb res) user w = creditsResult sb user w.
Proof. reflexivity. Qed.

Lemma withListing_insertResult sb res user w :
  insertResult (withListing sb res) user w = insertResult sb user w.
Proof. reflexivity. Qed.

(** The list that a run stores is a function of the listing read's answer. *)
Lemma loadData_projects user sb st w :
  projects (stateAfter (loadData (Some user) (Some sb)) st w) =
  match error (projectsResult sb w) with
  | Some _ => projects st
  | None => default [] (data (projectsResult sb w))
  end.
Proof.
  unfold stateAfter.
  destruct (error (projectsResult sb w)) as [e|] eqn:Hp.
  { now rewrite (loadData_listing_failed user sb st w e Hp). }
  destruct (error (creditsResult sb user w)) as [e|] eqn:Hc.
  2:{ now rewrite (loadData_credits_read user sb st w Hp Hc). }
  destruct (decide (code e = Text.PGRST116)) as [Hcode | Hcode].
  - now rewrite (loadData_bootstrap user sb st w e Hp Hc Hcode).
  - now rewrite (loadData_credits_failed user sb st w e Hp Hc Hcode).
Qed.

(** The balance after a run whose listing read did not fail is a function
    of the answers to the credit read and to the insert. *)
Lemma loadData_credits user sb st w :
  error (projectsResult sb w) = None ->
  credits (stateAfter (loadData (Some user) (Some sb)) st w) =
  match error (creditsResult sb user w) with
  | None => Some (num_or (data (creditsResult sb user w) ≫= row_credits) 0)
  | Some e =>
      if isNoRows e
      then Some (num_or (data (insertResult sb user w) ≫= row_credits) 1000)
      else credits st
  end.
Proof.
  intros Hp. unfold stateAfter, isNoRows.
  destruct (error (creditsResult sb user w)) as [e|] eqn:Hc.
  2:{ now rewrite (loadData_credits_read user sb st w Hp Hc). }
  destruct (decide (code e = Text.PGRST116)) as [Hcode | Hcode].
  - rewrite (loadData_bootstrap user sb st w e Hp Hc Hcode).
    now rewrite bool_decide_eq_true_2.
  - rewrite (loadData_credits_failed user sb st w e Hp Hc Hcode).
    now rewrite bool_decide_eq_false_2.
Qed.

(** C1, as the code has it.  The two reads are requested together, before
    either is answered, and the loading flag is cleared in every run.  The
    project list that is stored depends on the listing read's answer only,
    whatever the credit read and the insert are answered with.  The balance
    that is adopted does not depend on the rows the listing read returns;
    but when the listing read fails, the credit answers are discarded: no
    insert is requested and the balance stays what it was. *)
Theorem C1_listing_failure_gates_credits user sb st w :
  (exists rest,
     traceOf (loadData (Some user) (Some sb)) st w =
     EvRequest listingRead :: EvRequest (creditRead user) :: rest) /\
  isLoading (stateAfter (loadData (Some user) (Some sb)) st w) = false /\
  (forall sb', projectsResult sb' w = projectsResult sb w ->
     projects (stateAfter (loadData (Some user) (Some sb')) st w) =
     projects (stateAfter (loadData (Some user) (Some sb)) st w)) /\
  (forall rows rows',
     credits (stateAfter
                (loadData (Some user)
                   (Some (withListing sb {| data := rows; error := None |}))) st w) =
     credits (stateAfter
                (loadData (Some user)
                   (Some (withListing sb {| data := rows'; error := None |}))) st w)) /\
  (forall rows e,
     credits (stateAfter
                (loadData (Some user)
                   (Some (withListing sb {| data := rows; error := Some e |}))) st w) =
     credits st /\
     creditInserts
       (traceOf (loadData (Some user)
                   (Some (withListing sb {| data := rows; error := Some e |}))) st w) = []).
Proof.
  split; [| split; [| split; [| split]]].
  - unfold traceOf.
    destruct (error (projectsResult sb w)) as [e|] eqn:Hp.
    { rewrite (loadData_listing_failed user sb st w e Hp). cbn. eauto. }
    destruct (error (creditsResult sb user w)) as [e|] eqn:Hc.
    2:{ rewrite (loadData_credits_read user sb st w Hp Hc). cbn. eauto. }
    destruct (decide (code e = Text.PGRST116)) as [Hcode | Hcode].
    + rewrite (loadData_bootstrap user sb st w e Hp Hc Hcode). cbn. eauto.
    + rewrite (loadData_credits_failed user sb st w e Hp Hc Hcode). cbn. eauto.
  - unfold stateAfter.
    destruct (error (projectsResult sb w)) as [e|] eqn:Hp.
    { now rewrite (loadData_listing_failed user sb st w e Hp). }
    destruct (error (creditsResult sb user w)) as [e|] eqn:Hc.
    2:{ now rewrite (loadData_credits_read user sb st w Hp Hc). }
    destruct (decide (code e = Text.PGRST116)) as [Hcode | Hcode].
    + now rewrite (loadData_bootstrap user sb st w e Hp Hc Hcode).
    + now rewrite (loadData_credits_failed user sb st w e Hp Hc Hcode).
  - intros sb' Heq. rewrite !loadData_projects. now rewrite Heq.
  - intros rows rows'. rewrite !loadData_credits by reflexivity.
    now rewrite !withListing_creditsResult, !withListing_insertResult.
  - intros rows e. unfold stateAfter, traceOf.
    rewrite (loadData_listing_failed user _ st w e) by reflexivity.
    split; reflexivity.
Qed.

End Independence.

Lemma C1_listing_failure_gates_credits_witness :
  credits
    (stateAfter
       (loadData (Some Sample.u1)
          (Some (withListing (Sample.store RefStore.noFaults)
                   {| data := None; error := Some Sample.networkError |})))
       initialState Sample.busyDb) = credits initialState.
Proof.
  apply (C1_listing_failure_gates_credits Sample.u1 (Sample.store RefStore.noFaults)
           initialState Sample.busyDb).
Defined.

(** C1, as the specification words it, fails: for the same identity and the
    same store, the balance 42 is adopted when the listing read succeeds and
    none is adopted when it fails. *)
Lemma C1_counterexample :
  credits
    (stateAfter (loadData (Some Sample.u1) (Some (Sample.store RefStore.noFaults)))
       initialState Sample.busyDb) = Some 42%Z /\
  credits
    (stateAfter (loadData (Some Sample.u1)
                   (Some (Sample.store (RefStore.listingFails Sample.networkError))))
       initialState Sample.busyDb) = None /\
  credits
    (stateAfter (loadData (Some Sample.u1) (Some (Sample.store RefStore.noFaults)))
       initialState Sample.busyDb) <>
  credits
    (stateAfter (loadData (Some Sample.u1)
                   (Some (Sample.store (RefStore.listingFails Sample.networkError))))
       initialState Sample.busyDb).
Proof. repeat split. discriminate. Qed.

(** ** Project Listing Flow *)

Section Listing.
Variable instant : jsstring -> Z.

#[global] Instance byUpdatedAt_total ascending : Total (byUpdatedAt instant ascending).
Proof. intros a b. unfold byUpdatedAt. destruct ascending; lia. Qed.

#[global] Instance byUpdatedAt_trans ascending : Transitive (byUpdatedAt instant ascending).
Proof. intros a b c. unfold byUpdatedAt. destruct ascending; lia. Qed.

(** The reference store honours ordered reads, whatever fails. *)
Lemma RefStore_honoursOrder (faults : RefStore.Faults) :
  honoursOrder instant (RefStore.client instant faults).
Proof.
  intros ascending db rows. unfold RefStore.client.
  destruct (faults _) as [e|]; cbn; [discriminate |].
  intros [= <-]. apply Sorted_merge_sort. apply _.
Qed.

(** The rows of an ordered read are those of the table. *)
Lemma RefStore_listing_rows (db : RefStore.Db) :
  exists rows,
    projectsResult (RefStore.client instant RefStore.noFaults) db = RefStore.ok rows /\
    rows ≡ₚ RefStore.projects_tbl db.
Proof.
  eexists. split; [reflexivity |]. apply merge_sort_Permutation.
Qed.

Lemma previewProjects_bounded (user : option User) (st : State) :
  (length (previewProjects user st) <= 3)%nat.
Proof.
  unfold previewProjects, slice0.
  destruct (isLoading st); [simpl; lia |].
  destruct user; [| simpl; lia].
  rewrite length_firstn. lia.
Qed.

Lemma previewProjects_prefix (user : option User) (st : State) :
  exists rest, projects st = previewProjects user st ++ rest.
Proof.
  unfold previewProjects, slice0.
  destruct (isLoading st); [now exists (projects st) |].
  destruct user; [| now exists (projects st)].
  exists (skipn 3 (projects st)). symmetry. apply firstn_skipn.
Qed.

Lemma handleGenerate_projects {W} user (sb : option (Supabase W)) newProjectId st w :
  projects (stateAfter (handleGenerate user sb newProjectId) st w) = projects st.
Proof.
  unfold stateAfter.
  now destruct (handleGenerate_cases user sb newProjectId st w).
Qed.

(** C9.  In every state the dashboard can reach (by runs of [loadData]
    against a store that honours ordered reads, runs of [handleGenerate] and
    typing), the stored project list is ordered by [updated_at] descending;
    and the preview shows at most 3 entries, the first ones of the stored
    list, however long that list is. *)
Theorem C9_newest_first_bounded_preview (W : Type) (st : State) :
  Reachable instant W st ->
  newestFirst instant (projects st) /\
  (forall user, (length (previewProjects user st) <= 3)%nat) /\
  (forall user, exists rest, projects st = previewProjects user st ++ rest).
Proof.
  intros Hreach.
  split; [| split; intros user;
             [apply previewProjects_bounded | apply previewProjects_prefix]].
  induction Hreach as [| st user sb w _ IH Hord | st user sb id w _ IH | st v w _ IH].
  - constructor.
  - destruct user as [user|]; [destruct sb as [sb|] |].
    2,3: unfold stateAfter; rewrite loadData_idle by auto; exact IH.
    rewrite loadData_projects.
    destruct (error (projectsResult sb w)); [exact IH |].
    destruct (data (projectsResult sb w)) as [rows|] eqn:Hd; cbn; [| constructor].
    exact (Hord sb eq_refl false w rows Hd).
  - now rewrite handleGenerate_projects.
  - exact IH.
Qed.

End Listing.

Lemma C9_newest_first_bounded_preview_witness :
  newestFirst Sample.epochMillis
    (projects
       (stateAfter (loadData (Some Sample.u1) (Some (Sample.store RefStore.noFaults)))
          initialState Sample.busyDb)) /\
  (forall user,
     (length
        (previewProjects user
           (stateAfter (loadData (Some Sample.u1) (Some (Sample.store RefStore.noFaults)))
              initialState Sample.busyDb)) <= 3)%nat) /\
  (forall user, exists rest,
     projects
       (stateAfter (loadData (Some Sample.u1) (Some (Sample.store RefStore.noFaults)))
          initialState Sample.busyDb) =
     previewProjects user
       (stateAfter (loadData (Some Sample.u1) (Some (Sample.store RefStore.noFaults)))
          initialState Sample.busyDb) ++ rest).
Proof.
  apply (C9_newest_first_bounded_preview Sample.epochMillis RefStore.Db).
  apply reach_loadData.
  - apply reach_initial.
  - intros sb [= <-]. apply RefStore_honoursOrder.
Defined.

(** Four projects in the store: all four are stored, newest first, and the
    preview shows the three newest. *)
Example busy_dashboard :
  let st := stateAfter (loadData (Some Sample.u1) (Some (Sample.store RefStore.noFaults)))
              initialState Sample.busyDb in
  List.map project_id (projects st) = [lit "p2"; lit "p4"; lit "p3"; lit "p1"] /\
  List.map project_id (previewProjects (Some Sample.u1) st) = [lit "p2"; lit "p4"; lit "p3"].
Proof. split; vm_compute; reflexivity. Qed.

(** ** The prompt input *)

(** Pressing a key in the prompt input submits only on Enter, and then
    exactly as a click on the button does. *)
Lemma onKeyDown_Enter {W} user (sb : option (Supabase W)) newProjectId st w :
  run (onKeyDown (lit "Enter") user sb newProjectId) st w =
  run (handleGenerate user sb newProjectId) st w.
Proof.
  pose proof (handleGenerate_guarded user sb newProjectId st w) as Hguard.
  unfold run in *. unfold onKeyDown. unfold bind at 1. unfold getState at 1.
  cbn [ui]. rewrite bool_decide_eq_true_2 by reflexivity. cbn [andb].
  destruct (truthy (trim (inputValue st))) eqn:Ht; [reflexivity |].
  rewrite Hguard by now left. reflexivity.
Qed.

Lemma onKeyDown_other {W} key user (sb : option (Supabase W)) newProjectId st w :
  key <> lit "Enter" ->
  run (onKeyDown key user sb newProjectId) st w =
  (Returned tt, {| store := w; ui := st; trace := [] |}).
Proof.
  intros Hkey. unfold run, onKeyDown. unfold bind at 1. unfold getState at 1.
  cbn [ui]. now rewrite bool_decide_eq_false_2.
Qed.

(** * Further properties of the dashboard *)

(** ** [handleGenerate] beyond the claims *)

Section Generate.
Context {W : Type}.
Implicit Types (st : State) (w : W).

(** X1.  A submission whose insert succeeds, whose trimmed prompt holds no
    unpaired surrogate and whose project id is made of UUID characters ends
    in one navigation and no alert, after one request, the insert; the
    target's query parameters are exactly [id], the new id, and [prompt],
    the whole trimmed prompt percent-encoded; only the in-flight flag has
    changed. *)
Theorem created_project_is_opened user (sb : Supabase W) newProjectId st w :
  submits st ->
  error (fst (sb (projectInsert newProjectId st) w)) = None ->
  wellFormed (trim (inputValue st)) = true ->
  forallb isUuidChar newProjectId = true ->
  exists encoded,
    encodeURIComponent (trim (inputValue st)) = Some encoded /\
    navigations (traceOf (handleGenerate (Some user) (Some sb) newProjectId) st w) =
      [canvasHref newProjectId encoded] /\
    Url.queryParams (canvasHref newProjectId encoded) =
      [(lit "id", newProjectId); (lit "prompt", encoded)] /\
    alerts (traceOf (handleGenerate (Some user) (Some sb) newProjectId) st w) = [] /\
    requests (traceOf (handleGenerate (Some user) (Some sb) newProjectId) st w) =
      [projectInsert newProjectId st] /\
    stateAfter (handleGenerate (Some user) (Some sb) newProjectId) st w =
      withIsGenerating true st.
Proof.
  intros Hs He Hwf Hid.
  apply encodeURIComponent_returns in Hwf as [encoded Henc].
  exists encoded. unfold traceOf, stateAfter.
  rewrite (handleGenerate_navigates user sb newProjectId st w encoded Hs He Henc).
  cbn [snd trace ui navigations alerts requests].
  split; [exact Henc |]. split; [reflexivity |]. split; [| now repeat split].
  apply queryParams_canvasHref.
  - now apply plain_uuid.
  - exact (plain_encodeURIComponent _ _ Henc).
Qed.

(** X2.  A submission whose insert succeeds navigates exactly when the
    trimmed prompt holds no unpaired surrogate; when it holds one, the
    project has been inserted all the same, the alert shows the message of
    the [URIError], and the in-flight flag is cleared. *)
Theorem navigation_iff_wellFormed user (sb : Supabase W) newProjectId st w :
  submits st ->
  error (fst (sb (projectInsert newProjectId st) w)) = None ->
  (navigations (traceOf (handleGenerate (Some user) (Some sb) newProjectId) st w) <> [] <->
   wellFormed (trim (inputValue st)) = true) /\
  (wellFormed (trim (inputValue st)) = false ->
   requests (traceOf (handleGenerate (Some user) (Some sb) newProjectId) st w) =
     [projectInsert newProjectId st] /\
   alerts (traceOf (handleGenerate (Some user) (Some sb) newProjectId) st w) =
     [uriErrorMessage] /\
   stateAfter (handleGenerate (Some user) (Some sb) newProjectId) st w =
     withIsGenerating false st).
Proof.
  intros Hs He. unfold traceOf, stateAfter.
  destruct (encodeURIComponent (trim (inputValue st))) as [encoded|] eqn:Henc.
  - assert (Hwf : wellFormed (trim (inputValue st)) = true)
      by (apply encodeURIComponent_returns; eauto).
    rewrite (handleGenerate_navigates user sb newProjectId st w encoded Hs He Henc).
    cbn. split; [split; [auto | discriminate] | congruence].
  - assert (Hwf : wellFormed (trim (inputValue st)) = false).
    { destruct (wellFormed (trim (inputValue st))) eqn:E; [| reflexivity].
      apply encodeURIComponent_returns in E as [? E]. congruence. }
    rewrite (handleGenerate_malformed user sb newProjectId st w Hs He Henc).
    cbn. rewrite Hwf. split; [split; [congruence | discriminate] | auto].
Qed.

(** X3.  A submission that passes the guard without an identity, or with an
    identity but without a store handle, shows one alert and does nothing
    else: no request, no navigation, no change of state (the in-flight flag
    is not set).  The identity is checked first: without one the alert asks
    to sign in, whether or not there is a handle. *)
Theorem missing_identity_or_handle (user : option User) (sb : option (Supabase W))
    newProjectId st w :
  submits st ->
  user = None \/ sb = None ->
  alerts (traceOf (handleGenerate user sb newProjectId) st w) =
    [match user with None => Text.pleaseSignIn | Some _ => Text.notReady end] /\
  requests (traceOf (handleGenerate user sb newProjectId) st w) = [] /\
  navigations (traceOf (handleGenerate user sb newProjectId) st w) = [] /\
  stateAfter (handleGenerate user sb newProjectId) st w = st /\
  storeAfter (handleGenerate user sb newProjectId) st w = w.
Proof.
  intros Hs Hmissing. unfold traceOf, stateAfter, storeAfter.
  destruct user as [user|].
  - destruct Hmissing as [Hu | ->]; [discriminate |].
    rewrite (handleGenerate_notReady user newProjectId st w Hs). now repeat split.
  - rewrite (handleGenerate_anonymous sb newProjectId st w Hs). now repeat split.
Qed.

(** X4.  No run of [handleGenerate] lets an exception escape; a run sends
    at most one request, and only the insert of the derived title under the
    new id; it shows an alert or navigates, never both and neither twice;
    and a run that passes the guard does one of the two. *)
Theorem handleGenerate_outcomes (user : option User) (sb : option (Supabase W))
    newProjectId st w :
  fst (run (handleGenerate user sb newProjectId) st w) = Returned tt /\
  (requests (traceOf (handleGenerate user sb newProjectId) st w) = [] \/
   requests (traceOf (handleGenerate user sb newProjectId) st w) =
     [projectInsert newProjectId st]) /\
  (length (alerts (traceOf (handleGenerate user sb newProjectId) st w)) +
   length (navigations (traceOf (handleGenerate user sb newProjectId) st w)) <= 1)%nat /\
  (submits st ->
   (length (alerts (traceOf (handleGenerate user sb newProjectId) st w)) +
    length (navigations (traceOf (handleGenerate user sb newProjectId) st w)) = 1)%nat).
Proof.
  unfold traceOf.
  destruct (truthy (trim (inputValue st))) eqn:Ht;
    [destruct (isGenerating st) eqn:Hg |].
  2:{ assert (Hs : submits st) by (split; assumption).
      destruct user as [user|]; [destruct sb as [sb|] |].
      - destruct (error (fst (sb (projectInsert newProjectId st) w))) as [e|] eqn:He.
        + rewrite (handleGenerate_failed _ _ _ _ _ e) by assumption. cbn. auto.
        + destruct (encodeURIComponent (trim (inputValue st))) as [enc|] eqn:Henc.
          * rewrite (handleGenerate_navigates _ _ _ _ _ enc) by assumption. cbn. auto.
          * rewrite handleGenerate_malformed by assumption. cbn. auto.
      - rewrite handleGenerate_notReady by assumption. cbn. auto.
      - rewrite handleGenerate_anonymous by assumption. cbn. auto. }
  all: rewrite handleGenerate_guarded by auto; cbn;
    (split; [reflexivity |]); (split; [now left |]); (split; [lia |]);
    intros [Ht' Hg']; congruence.
Qed.

(** X5.  The button is disabled exactly when a click would do nothing: a
    run of [handleGenerate] leaves an empty trace if and only if
    [disabled] holds, and then it changes neither state nor store. *)
Theorem generate_button_disabled_iff (user : option User) (sb : option (Supabase W))
    newProjectId st w :
  (View.generateDisabled st = true <->
   traceOf (handleGenerate user sb newProjectId) st w = []) /\
  (View.generateDisabled st = true ->
   stateAfter (handleGenerate user sb newProjectId) st w = st /\
   storeAfter (handleGenerate user sb newProjectId) st w = w).
Proof.
  unfold View.generateDisabled, traceOf, stateAfter, storeAfter.
  destruct (truthy (trim (inputValue st))) eqn:Ht;
    [destruct (isGenerating st) eqn:Hg |].
  2:{ assert (Hs : submits st) by (split; assumption).
      cbn [negb orb]. split; [split; [discriminate |] | discriminate].
      destruct user as [user|]; [destruct sb as [sb|] |].
      - destruct (error (fst (sb (projectInsert newProjectId st) w))) as [e|] eqn:He.
        + rewrite (handleGenerate_failed _ _ _ _ _ e) by assumption. discriminate.
        + destruct (encodeURIComponent (trim (inputValue st))) as [enc|] eqn:Henc.
          * rewrite (handleGenerate_navigates _ _ _ _ _ enc) by assumption. discriminate.
          * rewrite handleGenerate_malformed by assumption. discriminate.
      - rewrite handleGenerate_notReady by assumption. discriminate.
      - rewrite handleGenerate_anonymous by assumption. discriminate. }
  all: rewrite handleGenerate_guarded by auto; cbn; now repeat split.
Qed.

(** X6.  After a run that navigated, the state rejects every further
    submission, whoever submits and whatever the store: the second click
    does nothing.  After a run whose insert failed, the state accepts the
    same prompt again, and the retry asks for the same title. *)
Theorem resubmission user (sb : Supabase W) newProjectId st w :
  submits st ->
  (error (fst (sb (projectInsert newProjectId st) w)) = None ->
   wellFormed (trim (inputValue st)) = true ->
   forall user' (sb' : option (Supabase W)) id' w',
     run (handleGenerate user' sb' id')
         (stateAfter (handleGenerate (Some user) (Some sb) newProjectId) st w) w' =
     (Returned tt,
      {| store := w';
         ui := stateAfter (handleGenerate (Some user) (Some sb) newProjectId) st w;
         trace := [] |})) /\
  (forall e, error (fst (sb (projectInsert newProjectId st) w)) = Some e ->
     submits (stateAfter (handleGenerate (Some user) (Some sb) newProjectId) st w) /\
     forall id',
       projectInsert id' (stateAfter (handleGenerate (Some user) (Some sb) newProjectId) st w) =
       InsertProject id' (projectTitle (inputValue st))).
Proof.
  intros Hs. split.
  - intros He Hwf user' sb' id' w'.
    apply encodeURIComponent_returns in Hwf as [encoded Henc].
    apply handleGenerate_guarded. right. unfold stateAfter.
    now rewrite (handleGenerate_navigates user sb newProjectId st w encoded Hs He Henc).
  - intros e He. unfold stateAfter.
    rewrite (handleGenerate_failed user sb newProjectId st w e Hs He). cbn.
    destruct Hs as [Ht Hg]. now repeat split.
Qed.

End Generate.

Lemma created_project_is_opened_witness :
  exists encoded,
    encodeURIComponent (trim (lit "  Design a logo  ")) = Some encoded /\
    navigations
      (traceOf (handleGenerate (Some Sample.u1) (Some (Sample.store RefStore.noFaults))
                  Sample.uuid)
         (Sample.typed (lit "  Design a logo  ")) Sample.emptyDb) =
      [canvasHref Sample.uuid encoded] /\
    Url.queryParams (canvasHref Sample.uuid encoded) =
      [(lit "id", Sample.uuid); (lit "prompt", encoded)] /\
    alerts
      (traceOf (handleGenerate (Some Sample.u1) (Some (Sample.store RefStore.noFaults))
                  Sample.uuid)
         (Sample.typed (lit "  Design a logo  ")) Sample.emptyDb) = [] /\
    requests
      (traceOf (handleGenerate (Some Sample.u1) (Some (Sample.store RefStore.noFaults))
                  Sample.uuid)
         (Sample.typed (lit "  Design a logo  ")) Sample.emptyDb) =
      [projectInsert Sample.uuid (Sample.typed (lit "  Design a logo  "))] /\
    stateAfter (handleGenerate (Some Sample.u1) (Some (Sample.store RefStore.noFaults))
                  Sample.uuid)
      (Sample.typed (lit "  Design a logo  ")) Sample.emptyDb =
      withIsGenerating true (Sample.typed (lit "  Design a logo  ")).
Proof.
  apply (created_project_is_opened Sample.u1 (Sample.store RefStore.noFaults)
           Sample.uuid (Sample.typed (lit "  Design a logo  ")) Sample.emptyDb).
  - split; reflexivity.
  - reflexivity.
  - reflexivity.
  - reflexivity.
Defined.

Lemma navigation_iff_wellFormed_witness :
  alerts
    (traceOf (handleGenerate (Some Sample.u1) (Some (Sample.store RefStore.noFaults))
                Sample.uuid)
       (Sample.typed [0x61; 0xDC00]) Sample.emptyDb) = [uriErrorMessage].
Proof.
  apply (navigation_iff_wellFormed Sample.u1 (Sample.store RefStore.noFaults)
           Sample.uuid (Sample.typed [0x61; 0xDC00]) Sample.emptyDb).
  - split; reflexivity.
  - reflexivity.
  - reflexivity.
Defined.

Lemma missing_identity_or_handle_witness :
  alerts
    (traceOf (handleGenerate None (@None (Supabase RefStore.Db)) Sample.uuid)
       (Sample.typed (lit "Design a logo")) Sample.emptyDb) = [Text.pleaseSignIn].
Proof.
  apply (missing_identity_or_handle None (@None (Supabase RefStore.Db)) Sample.uuid
           (Sample.typed (lit "Design a logo")) Sample.emptyDb).
  - split; reflexivity.
  - left. reflexivity.
Defined.

Lemma handleGenerate_outcomes_witness :
  (length
     (alerts
        (traceOf (handleGenerate (Some Sample.u1)
                    (Some (Sample.store (RefStore.insertsFail Sample.networkError)))
                    Sample.uuid)
           (Sample.typed (lit "Design a logo")) Sample.emptyDb)) +
   length
     (navigations
        (traceOf (handleGenerate (Some Sample.u1)
                    (Some (Sample.store (RefStore.insertsFail Sample.networkError)))
                    Sample.uuid)
           (Sample.typed (lit "Design a logo")) Sample.emptyDb)) = 1)%nat.
Proof.
  apply (handleGenerate_outcomes (Some Sample.u1)
           (Some (Sample.store (RefStore.insertsFail Sample.networkError)))
           Sample.uuid (Sample.typed (lit "Design a logo")) Sample.emptyDb).
  split; reflexivity.
Defined.

Lemma generate_button_disabled_iff_witness :
  stateAfter (handleGenerate (Some Sample.u1) (Some (Sample.store RefStore.noFaults))
                Sample.uuid)
    (withIsGenerating true (Sample.typed (lit "Design a logo"))) Sample.emptyDb =
  withIsGenerating true (Sample.typed (lit "Design a logo")).
Proof.
  apply (generate_button_disabled_iff (Some Sample.u1)
           (Some (Sample.store RefStore.noFaults)) Sample.uuid
           (withIsGenerating true (Sample.typed (lit "Design a logo"))) Sample.emptyDb).
  reflexivity.
Defined.

Lemma resubmission_witness :
  submits
    (stateAfter (handleGenerate (Some Sample.u1)
                   (Some (Sample.store (RefStore.insertsFail Sample.networkError)))
                   Sample.uuid)
       (Sample.typed (lit "Design a logo")) Sample.emptyDb).
Proof.
  apply (proj2 (resubmission Sample.u1
                  (Sample.store (RefStore.insertsFail Sample.networkError))
                  Sample.uuid (Sample.typed (lit "Design a logo")) Sample.emptyDb
                  (conj eq_refl eq_refl))
           Sample.networkError).
  reflexivity.
Defined.

(** ** What the two flows leave alone *)

Section Frame.
Context {W : Type}.
Implicit Types (st : State) (w : W).

(** Every run of [loadData] is one of five. *)
Lemma loadData_cases (user : option User) (sb : option (Supabase W)) st w :
  (user = None \/ sb = None) \/
  exists u s, user = Some u /\ sb = Some s /\
    ((exists e, error (projectsResult s w) = Some e) \/
     (error (projectsResult s w) = None /\ error (creditsResult s u w) = None) \/
     (error (projectsResult s w) = None /\
      exists e, error (creditsResult s u w) = Some e /\ code e = Text.PGRST116) \/
     (error (projectsResult s w) = None /\
      exists e, error (creditsResult s u w) = Some e /\ code e <> Text.PGRST116)).
Proof.
  destruct user as [u|]; [| auto]. destruct sb as [s|]; [| auto].
  right. exists u, s. split; [reflexivity |]. split; [reflexivity |].
  destruct (error (projectsResult s w)) as [e|]; [eauto |].
  destruct (error (creditsResult s u w)) as [e|]; [| auto].
  destruct (decide (code e = Text.PGRST116)); eauto 10.
Qed.

Ltac load_cases user sb st w :=
  destruct (loadData_cases user sb st w)
    as [Hidle | (u & s & -> & -> & [[e Hp] | [[Hp Hc] | [[Hp (e & Hc & Hcode)] | [Hp (e & Hc & Hcode)]]]])];
  [ rewrite (loadData_idle user sb st w Hidle)
  | rewrite (loadData_listing_failed u s st w e Hp)
  | rewrite (loadData_credits_read u s st w Hp Hc)
  | rewrite (loadData_bootstrap u s st w e Hp Hc Hcode)
  | rewrite (loadData_credits_failed u s st w e Hp Hc Hcode) ].

Lemma loadData_isLoading (user : option User) (sb : option (Supabase W)) st w :
  isLoading (stateAfter (loadData user sb) st w) = false.
Proof. unfold stateAfter. load_cases user sb st w; reflexivity. Qed.

(** X7.  No run of [loadData] lets an exception escape or leaves the
    loading flag set; it shows no alert and navigates nowhere; it sends
    nothing, or the two reads, or the two reads and then the insert of the
    identity with 1000, never anything else; and it leaves the prompt and
    the in-flight flag as they were. *)
Theorem loadData_outcomes (user : option User) (sb : option (Supabase W)) st w :
  fst (run (loadData user sb) st w) = Returned tt /\
  isLoading (stateAfter (loadData user sb) st w) = false /\
  alerts (traceOf (loadData user sb) st w) = [] /\
  navigations (traceOf (loadData user sb) st w) = [] /\
  (requests (traceOf (loadData user sb) st w) = [] \/
   exists u, user = Some u /\
     (requests (traceOf (loadData user sb) st w) = [listingRead; creditRead u] \/
      requests (traceOf (loadData user sb) st w) =
        [listingRead; creditRead u; creditInsert u])) /\
  inputValue (stateAfter (loadData user sb) st w) = inputValue st /\
  isGenerating (stateAfter (loadData user sb) st w) = isGenerating st.
Proof.
  unfold traceOf, stateAfter.
  load_cases user sb st w; cbn; repeat split; eauto 6.
Qed.

(** X8.  A run of [handleGenerate] changes at most the in-flight flag:
    the stored projects, the balance, the loading flag and the prompt are
    what they were; and it never asks for a credit record or a listing. *)
Theorem handleGenerate_frame (user : option User) (sb : option (Supabase W))
    newProjectId st w :
  projects (stateAfter (handleGenerate user sb newProjectId) st w) = projects st /\
  credits (stateAfter (handleGenerate user sb newProjectId) st w) = credits st /\
  isLoading (stateAfter (handleGenerate user sb newProjectId) st w) = isLoading st /\
  inputValue (stateAfter (handleGenerate user sb newProjectId) st w) = inputValue st /\
  creditInserts (traceOf (handleGenerate user sb newProjectId) st w) = [] /\
  (forall r, In r (requests (traceOf (handleGenerate user sb newProjectId) st w)) ->
             exists title, r = InsertProject newProjectId title).
Proof.
  unfold traceOf, stateAfter.
  destruct (handleGenerate_cases user sb newProjectId st w); cbn;
    repeat split; try tauto;
    intros r [<- | []]; unfold projectInsert; eauto.
Qed.

(** X9.  In every run of [loadData], whatever precedes the request of the
    credit insert contains the settling of the listing read without error
    and the settling of the credit read with error code PGRST116: the read
    strictly precedes the conditional insert; and after the insert nothing
    happens but its settling. *)
Theorem read_precedes_insert (user : option User) (sb : option (Supabase W))
    st w pre uid amount post :
  traceOf (loadData user sb) st w = pre ++ EvRequest (InsertCredits uid amount) :: post ->
  exists u e,
    user = Some u /\ uid = user_id u /\ amount = 1000%Z /\
    In (EvSettled listingRead None) pre /\
    In (EvSettled (creditRead u) (Some e)) pre /\ code e = Text.PGRST116 /\
    exists outcome, post = [EvSettled (creditInsert u) outcome].
Proof.
  unfold traceOf.
  load_cases user sb st w; cbn; intros Htr.
  1-3, 5:
    exfalso;
    assert (Hin : In (EvRequest (InsertCredits uid amount))
                     (pre ++ EvRequest (InsertCredits uid amount) :: post))
      by (apply in_or_app; right; now left);
    rewrite <- Htr in Hin; cbn in Hin;
    unfold listingRead, creditRead in Hin; intuition discriminate.
  destruct pre as [|a [|b [|c [|d [|x pre]]]]]; cbn in Htr;
    unfold listingRead, creditRead, creditInsert in *; try discriminate.
  - inversion Htr; subst.
    exists u, e. cbn. repeat split; eauto.
  - inversion Htr as [[Ha Hb Hc' Hd Hx Hrest]].
    destruct pre as [|y pre]; [discriminate |].
    inversion Hrest as [[Hy Hrest']]. destruct pre; discriminate.
Qed.

End Frame.

Lemma read_precedes_insert_witness :
  exists u e,
    Some Sample.u1 = Some u /\ lit "u1" = user_id u /\ 1000%Z = 1000%Z /\
    In (EvSettled listingRead None)
       [EvRequest listingRead; EvRequest (creditRead Sample.u1);
        EvSettled listingRead None;
        EvSettled (creditRead Sample.u1) (Some RefStore.noRows)] /\
    In (EvSettled (creditRead u) (Some e))
       [EvRequest listingRead; EvRequest (creditRead Sample.u1);
        EvSettled listingRead None;
        EvSettled (creditRead Sample.u1) (Some RefStore.noRows)] /\
    code e = Text.PGRST116 /\
    exists outcome, [EvSettled (creditInsert Sample.u1) None] =
                    [EvSettled (creditInsert u) outcome].
Proof.
  apply (read_precedes_insert (Some Sample.u1) (Some (Sample.store RefStore.noFaults))
           initialState Sample.emptyDb).
  vm_compute. reflexivity.
Defined.

Section LoadEdges.
Context {W : Type}.
Implicit Types (sb : Supabase W) (st : State) (w : W) (user : User).

(** X10.  When the credit read fails with an error other than PGRST116,
    the failure is ignored without a trace: nothing is logged, no insert is
    requested, the balance stays what it was, and the listing is stored all
    the same. *)
Theorem other_credit_errors_are_ignored user sb st w e :
  error (projectsResult sb w) = None ->
  error (creditsResult sb user w) = Some e ->
  code e <> Text.PGRST116 ->
  consoleErrors (traceOf (loadData (Some user) (Some sb)) st w) = [] /\
  requests (traceOf (loadData (Some user) (Some sb)) st w) = [listingRead; creditRead user] /\
  credits (stateAfter (loadData (Some user) (Some sb)) st w) = credits st /\
  projects (stateAfter (loadData (Some user) (Some sb)) st w) =
    default [] (data (projectsResult sb w)).
Proof.
  intros Hp Hc Hcode. unfold traceOf, stateAfter.
  rewrite (loadData_credits_failed user sb st w e Hp Hc Hcode). now repeat split.
Qed.

(** X11.  When the listing read fails, the list stored before stays (it is
    not emptied), one diagnostic is logged and nothing is shown to the
    user; both reads have been sent, and nothing else. *)
Theorem listing_failure_keeps_list user sb st w e :
  error (projectsResult sb w) = Some e ->
  projects (stateAfter (loadData (Some user) (Some sb)) st w) = projects st /\
  consoleErrors (traceOf (loadData (Some user) (Some sb)) st w) =
    [lit "Failed to load data:"] /\
  alerts (traceOf (loadData (Some user) (Some sb)) st w) = [] /\
  requests (traceOf (loadData (Some user) (Some sb)) st w) = [listingRead; creditRead user] /\
  stateAfter (loadData (Some user) (Some sb)) st w = withIsLoading false st.
Proof.
  intros Hp. unfold traceOf, stateAfter.
  rewrite (loadData_listing_failed user sb st w e Hp). now repeat split.
Qed.

(** X12.  When the listing read succeeds, the list that is stored is the
    whole list the store returned, in its order and however long; a
    success without rows stores the empty list; and the count beside the
    heading is the length of the whole list while the preview holds its
    first three entries at most. *)
Theorem listing_is_stored_whole user sb st w :
  error (projectsResult sb w) = None ->
  (forall rows, data (projectsResult sb w) = Some rows ->
     projects (stateAfter (loadData (Some user) (Some sb)) st w) = rows /\
     View.projectCount (Some user) (stateAfter (loadData (Some user) (Some sb)) st w) =
       Some (length rows) /\
     previewProjects (Some user) (stateAfter (loadData (Some user) (Some sb)) st w) =
       firstn 3 rows) /\
  (data (projectsResult sb w) = None ->
     projects (stateAfter (loadData (Some user) (Some sb)) st w) = []).
Proof.
  intros Hp.
  assert (Hl : isLoading (stateAfter (loadData (Some user) (Some sb)) st w) = false)
    by apply loadData_isLoading.
  pose proof (loadData_projects user sb st w) as Hprojects. rewrite Hp in Hprojects.
  split.
  - intros rows Hd. rewrite Hd in Hprojects.
    change (default [] (Some rows)) with rows in Hprojects.
    unfold View.projectCount, previewProjects. rewrite Hl, Hprojects. now repeat split.
  - intros Hd. now rewrite Hd in Hprojects.
Qed.

End LoadEdges.

Lemma other_credit_errors_are_ignored_witness :
  consoleErrors
    (traceOf (loadData (Some Sample.u1)
                (Some (Sample.store
                         (fun r => match r with
                                   | SelectCredits _ _ => Some Sample.networkError
                                   | _ => None
                                   end))))
       initialState Sample.busyDb) = [].
Proof.
  apply (other_credit_errors_are_ignored Sample.u1
           (Sample.store (fun r => match r with
                                   | SelectCredits _ _ => Some Sample.networkError
                                   | _ => None
                                   end))
           initialState Sample.busyDb Sample.networkError).
  - reflexivity.
  - reflexivity.
  - vm_compute. discriminate.
Defined.

Lemma listing_failure_keeps_list_witness :
  projects
    (stateAfter (loadData (Some Sample.u1)
                   (Some (Sample.store (RefStore.listingFails Sample.networkError))))
       (withProjects [Sample.project "p9" "kept" "900"] initialState) Sample.busyDb) =
  [Sample.project "p9" "kept" "900"].
Proof.
  apply (listing_failure_keeps_list Sample.u1
           (Sample.store (RefStore.listingFails Sample.networkError))
           (withProjects [Sample.project "p9" "kept" "900"] initialState)
           Sample.busyDb Sample.networkError).
  reflexivity.
Defined.

Lemma listing_is_stored_whole_witness :
  projects
    (stateAfter (loadData (Some Sample.u1) (Some (Sample.store RefStore.noFaults)))
       initialState Sample.busyDb) =
  [Sample.project "p2" "two" "1400"; Sample.project "p4" "four" "1300";
   Sample.project "p3" "three" "1200"; Sample.project "p1" "one" "1000"].
Proof.
  apply (proj1 (listing_is_stored_whole Sample.u1 (Sample.store RefStore.noFaults)
                  initialState Sample.busyDb eq_refl)).
  vm_compute. reflexivity.
Defined.

(** ** Signing out, and loading twice *)

Section SignedOut.
Variable getTime : jsstring -> option Z.
Variable toLocaleDateString : Z -> jsstring.
Context {W : Type}.

(** X13.  Without an identity, or without a store handle, [loadData] sends
    nothing and only clears the loading flag: the projects and the balance
    of an earlier load stay in the state.  Without an identity none of them
    is rendered: the cards are the three samples, there is no count, no
    "no projects yet" message and no balance. *)
Theorem signed_out_shows_nothing_stored (user : option User) (sb : option (Supabase W))
    st (w : W) now :
  user = None \/ sb = None ->
  requests (traceOf (loadData user sb) st w) = [] /\
  stateAfter (loadData user sb) st w = withIsLoading false st /\
  (user = None ->
   Dates.projectCards getTime toLocaleDateString now user (stateAfter (loadData user sb) st w) =
     View.sampleCards /\
   previewProjects user (stateAfter (loadData user sb) st w) = [] /\
   View.projectCount user (stateAfter (loadData user sb) st w) = None /\
   View.showsEmptyMessage user (stateAfter (loadData user sb) st w) = false /\
   creditsDisplay user (stateAfter (loadData user sb) st w) = None).
Proof.
  intros Hidle. unfold traceOf, stateAfter.
  rewrite (loadData_idle user sb st w Hidle). cbn [snd trace ui requests].
  split; [reflexivity |]. split; [reflexivity |].
  intros ->. now repeat split.
Qed.

End SignedOut.

Lemma signed_out_shows_nothing_stored_witness :
  Dates.projectCards (fun _ => None) (fun _ => []) 0%Z None
    (stateAfter (loadData None (Some (Sample.store RefStore.noFaults)))
       (withCredits 42 (withProjects [Sample.project "p9" "kept" "900"] initialState))
       Sample.busyDb) = View.sampleCards.
Proof.
  apply (signed_out_shows_nothing_stored (fun _ => None) (fun _ => []) None
           (Some (Sample.store RefStore.noFaults))
           (withCredits 42 (withProjects [Sample.project "p9" "kept" "900"] initialState))
           Sample.busyDb 0%Z).
  - left. reflexivity.
  - reflexivity.
Defined.

Section LoadTwice.
Variable instant : jsstring -> Z.

(** X14.  Against the reference store with nothing failing, loading twice
    for an identity without a credit record creates one record, not two:
    the first load inserts it with balance 1000, the second finds it, sends
    no insert and leaves the store as the first left it; 1000 is shown
    after both. *)
Theorem loading_twice_inserts_once (db : RefStore.Db) (user : User) (st : State) :
  RefStore.user_credits db !! user_id user = None ->
  let sb := RefStore.client instant RefStore.noFaults in
  let first := run (loadData (Some user) (Some sb)) st db in
  let second := run (loadData (Some user) (Some sb)) (ui (snd first)) (store (snd first)) in
  creditInserts (trace (snd first)) ++ creditInserts (trace (snd second)) =
    [(user_id user, 1000%Z)] /\
  RefStore.user_credits (store (snd second)) =
    <[user_id user := 1000%Z]> (RefStore.user_credits db) /\
  store (snd second) = store (snd first) /\
  credits (ui (snd first)) = Some 1000%Z /\
  credits (ui (snd second)) = Some 1000%Z.
Proof.
  intros Hnone sb first second.
  destruct (RefStore_first_load instant db user st Hnone) as (Hrec & _ & Hins & Hcred).
  fold sb in Hrec, Hins, Hcred. fold first in Hrec, Hins, Hcred.
  assert (Hsome : RefStore.user_credits (store (snd first)) !! user_id user = Some 1000%Z)
    by (rewrite Hrec; apply lookup_insert_eq).
  destruct (RefStore_later_load instant (store (snd first)) user (ui (snd first)) 1000%Z Hsome)
    as (Hstore & Hins2 & Hcred2).
  fold sb in Hstore, Hins2, Hcred2. fold second in Hstore, Hins2, Hcred2.
  rewrite Hins, Hins2, Hstore, Hrec. now repeat split.
Qed.

End LoadTwice.

Lemma loading_twice_inserts_once_witness :
  let sb := RefStore.client Sample.epochMillis RefStore.noFaults in
  let first := run (loadData (Some Sample.u1) (Some sb)) initialState Sample.emptyDb in
  let second := run (loadData (Some Sample.u1) (Some sb)) (ui (snd first)) (store (snd first)) in
  creditInserts (trace (snd first)) ++ creditInserts (trace (snd second)) =
    [(lit "u1", 1000%Z)] /\
  RefStore.user_credits (store (snd second)) =
    <[lit "u1" := 1000%Z]> (RefStore.user_credits Sample.emptyDb) /\
  store (snd second) = store (snd first) /\
  credits (ui (snd first)) = Some 1000%Z /\
  credits (ui (snd second)) = Some 1000%Z.
Proof.
  apply (loading_twice_inserts_once Sample.epochMillis Sample.emptyDb Sample.u1 initialState).
  reflexivity.
Defined.

(** ** More on trimming and the title *)

Lemma trimStart_split (s : jsstring) :
  exists a, s = a ++ trimStart s /\ forallb isWhiteSpace a = true.
Proof.
  induction s as [|c s (a & Hs & Ha)]; [now exists [] |].
  simpl. destruct (isWhiteSpace c) eqn:Ec.
  - exists (c :: a). simpl. rewrite Ec, Ha. split; [now f_equal | reflexivity].
  - now exists [].
Qed.

Lemma trimStart_head (s : jsstring) c r :
  trimStart s = c :: r -> isWhiteSpace c = false.
Proof.
  induction s as [|d s IH]; simpl; [discriminate |].
  destruct (isWhiteSpace d) eqn:Ed; [exact IH |].
  now intros [= <- _].
Qed.

Lemma trimStart_snoc (l : jsstring) c :
  isWhiteSpace c = false -> trimStart (l ++ [c]) = trimStart l ++ [c].
Proof.
  intros Hc. induction l as [|d l IH]; simpl; [now rewrite Hc |].
  now destruct (isWhiteSpace d).
Qed.

Lemma trimEnd_cons (c : N) (r : jsstring) :
  isWhiteSpace c = false -> trimEnd (c :: r) = c :: trimEnd r.
Proof.
  intros Hc. unfold trimEnd. simpl rev.
  rewrite trimStart_snoc by exact Hc. now rewrite rev_app_distr.
Qed.

Lemma trimEnd_split (s : jsstring) :
  exists b, s = trimEnd s ++ b /\ forallb isWhiteSpace b = true.
Proof.
  destruct (trimStart_split (rev s)) as (a & Hs & Ha).
  exists (rev a). split.
  - unfold trimEnd. rewrite <- rev_app_distr, <- Hs. now rewrite rev_involutive.
  - rewrite forallb_forall in *. intros x Hx. apply Ha. now apply in_rev.
Qed.

Lemma trim_head (s : jsstring) c r : trim s = c :: r -> isWhiteSpace c = false.
Proof.
  unfold trim. destruct (trimStart s) as [|d t] eqn:Et; [discriminate |].
  pose proof (trimStart_head s d t Et) as Hd.
  rewrite trimEnd_cons by exact Hd. now intros [= <- _].
Qed.

Lemma trim_last (s r : jsstring) c : trim s = r ++ [c] -> isWhiteSpace c = false.
Proof.
  unfold trim, trimEnd. intros H.
  apply (f_equal (@rev N)) in H. rewrite rev_involutive, rev_app_distr in H.
  simpl in H. exact (trimStart_head _ _ _ H).
Qed.

(** X15.  [trim] cuts white space off both ends and nothing else: the
    string is the trimmed string between two runs of white space, and the
    trimmed string neither begins nor ends with white space; so trimming
    twice is trimming once. *)
Theorem trim_cuts_both_ends (s : jsstring) :
  (exists a b, s = a ++ trim s ++ b /\
               forallb isWhiteSpace a = true /\ forallb isWhiteSpace b = true) /\
  (forall c r, trim s = c :: r -> isWhiteSpace c = false) /\
  (forall r c, trim s = r ++ [c] -> isWhiteSpace c = false) /\
  trim (trim s) = trim s.
Proof.
  split; [| split; [apply trim_head | split; [apply trim_last |]]].
  - destruct (trimStart_split s) as (a & Hs & Ha).
    destruct (trimEnd_split (trimStart s)) as (b & Ht & Hb).
    exists a, b. unfold trim. now rewrite <- Ht.
  - destruct (trim s) as [|c r] eqn:E; [reflexivity |].
    pose proof (trim_head s c r E) as Hc.
    unfold trim at 1. simpl trimStart. rewrite Hc.
    unfold trimEnd.
    destruct (rev (c :: r)) as [|d t] eqn:Er.
    { apply (f_equal (@length N)) in Er. rewrite length_rev in Er. discriminate. }
    assert (Hd : isWhiteSpace d = false).
    { apply (trim_last s (rev t) d). rewrite E.
      apply (f_equal (@rev N)) in Er. rewrite rev_involutive in Er. exact Er. }
    simpl trimStart. rewrite Hd. rewrite <- Er. apply rev_involutive.
Qed.

(** X16.  The derived title has at most 50 code units and does not begin
    with white space; for a prompt that is not blank it is a prefix of the
    trimmed prompt. *)
Theorem title_bounds (prompt : jsstring) :
  (length (projectTitle prompt) <= 50)%nat /\
  (forall c r, projectTitle prompt = c :: r -> isWhiteSpace c = false) /\
  (truthy (trim prompt) = true ->
   exists rest, trim prompt = projectTitle prompt ++ rest).
Proof.
  unfold projectTitle, or_else, slice0.
  destruct (trim prompt) as [|c t] eqn:E.
  - cbn. split; [lia |]. split; [| discriminate].
    intros c r [= <- _]. reflexivity.
  - pose proof (trim_head prompt c t E) as Hc.
    cbn [firstn truthy]. split; [| split].
    + cbn [length]. pose proof (firstn_le_length 49 t). rewrite length_firstn. lia.
    + now intros c' r [= <- _].
    + intros _. exists (skipn 49 t). cbn. f_equal. symmetry. apply firstn_skipn.
Qed.

Lemma title_bounds_witness :
  exists rest, trim (repeat 0x61 60) = projectTitle (repeat 0x61 60) ++ rest.
Proof.
  apply (title_bounds (repeat 0x61 60)).
  reflexivity.
Defined.

(** ** The alphabet of an encoded component *)

Lemma lor_below_256 (a b : N) : 0 < a -> a < 256 -> b < 256 -> N.lor a b < 256.
Proof.
  intros Ha Ha' Hb.
  assert (Hpos : 0 < N.lor a b).
  { destruct (N.eq_dec (N.lor a b) 0) as [E|]; [| lia].
    apply N.lor_eq_0_iff in E. lia. }
  change 256 with (2 ^ 8). apply N.log2_lt_pow2; [exact Hpos |].
  rewrite N.log2_lor.
  assert (N.log2 a < 8) by (apply N.log2_lt_pow2; [lia | exact Ha']).
  assert (N.log2 b < 8).
  { destruct (N.eq_dec b 0) as [-> | Hne]; [cbn; lia |].
    apply N.log2_lt_pow2; [lia | exact Hb]. }
  lia.
Qed.

Lemma land_below (a : N) (k : N) (bound : N) :
  N.ones k = bound -> N.land a bound < 2 ^ k.
Proof.
  intros <-. rewrite N.land_ones. apply N.mod_upper_bound.
  apply N.pow_nonzero. lia.
Qed.

Lemma shiftr_below (a k bound : N) : a < 2 ^ k * bound -> N.shiftr a k < bound.
Proof. intros H. rewrite N.shiftr_div_pow2. now apply N.Div0.div_lt_upper_bound. Qed.

Lemma utf8_octets (cp : N) : cp < 0x110000 -> Forall (fun o => o < 256) (utf8 cp).
Proof.
  intros Hcp. unfold utf8.
  destruct (N.ltb_spec cp 0x80); [repeat constructor; lia |].
  destruct (N.ltb_spec cp 0x800).
  { repeat constructor; apply lor_below_256; try lia.
    - assert (N.shiftr cp 6 < 32) by (apply shiftr_below; cbn; lia). lia.
    - pose proof (land_below cp 6 0x3F eq_refl). cbn in *. lia. }
  destruct (N.ltb_spec cp 0x10000).
  { repeat constructor; apply lor_below_256; try lia.
    - assert (N.shiftr cp 12 < 16) by (apply shiftr_below; cbn; lia). lia.
    - pose proof (land_below (N.shiftr cp 6) 6 0x3F eq_refl). cbn in *. lia.
    - pose proof (land_below cp 6 0x3F eq_refl). cbn in *. lia. }
  repeat constructor; apply lor_below_256; try lia.
  - assert (N.shiftr cp 18 < 8) by (apply shiftr_below; cbn; lia). lia.
  - pose proof (land_below (N.shiftr cp 12) 6 0x3F eq_refl). cbn in *. lia.
  - pose proof (land_below (N.shiftr cp 6) 6 0x3F eq_refl). cbn in *. lia.
  - pose proof (land_below cp 6 0x3F eq_refl). cbn in *. lia.
Qed.

Lemma hexDigit_alnum (d : N) : d < 16 -> isAlnum (hexDigit d) = true.
Proof.
  intros Hd. unfold isAlnum, hexDigit.
  destruct (N.ltb_spec d 10); to_arith; lia.
Qed.

Lemma percent_alphabet (octet : N) :
  octet < 256 ->
  forallb (fun c => uriUnreserved c || (c =? 0x25)) (percent octet) = true.
Proof.
  intros Ho. unfold percent, uriUnreserved. cbn [forallb].
  rewrite !hexDigit_alnum.
  - reflexivity.
  - pose proof (land_below octet 4 0xF eq_refl). cbn in *. lia.
  - apply shiftr_below. cbn. lia.
Qed.

Lemma escapeCodePoint_alphabet (cp : N) :
  cp < 0x110000 ->
  forallb (fun c => uriUnreserved c || (c =? 0x25)) (escapeCodePoint cp) = true.
Proof.
  intros Hcp. unfold escapeCodePoint.
  pose proof (utf8_octets cp Hcp) as Hoct.
  induction Hoct as [|o os Ho _ IH]; [reflexivity |].
  cbn [List.map List.concat]. rewrite forallb_app, percent_alphabet by exact Ho.
  exact IH.
Qed.

Lemma codePointOfPair_below (lead trail : N) :
  isLeadSurrogate lead = true -> isTrailSurrogate trail = true ->
  codePointOfPair lead trail < 0x110000.
Proof.
  unfold isLeadSurrogate, isTrailSurrogate, codePointOfPair.
  intros Hl Ht. to_arith. lia.
Qed.

(** X17.  What [encodeURIComponent] returns for a string of 16-bit code
    units is made of unreserved characters (ASCII letters and digits and
    [-_.!~*'()]) and [%] only; in particular it is ASCII and holds none of
    the separators of a URL. *)
Theorem encoded_alphabet (s encoded : jsstring) :
  Forall (fun c => c < 0x10000) s ->
  encodeURIComponent s = Some encoded ->
  forallb (fun c => uriUnreserved c || (c =? 0x25)) encoded = true /\
  forallb (fun c => c <? 0x80) encoded = true /\
  forallb (fun c => negb (existsb (N.eqb c) (lit "/?#&=+ "))) encoded = true.
Proof.
  intros Hs Henc.
  assert (Halpha : forallb (fun c => uriUnreserved c || (c =? 0x25)) encoded = true).
  { revert encoded Hs Henc.
    induction s as [|c rest IH1 IH2] using jsstring_pair_ind; intros encoded Hs.
    - simpl. now intros [= <-].
    - apply Forall_cons in Hs as [Hc Hrest]. simpl.
      destruct (uriUnreserved c) eqn:Eu.
      + destruct (encodeURIComponent rest) as [enc|]; [| discriminate].
        intros [= <-]. simpl. rewrite Eu. now apply IH1.
      + destruct (isLeadSurrogate c) eqn:El.
        * destruct rest as [|d rest']; [discriminate |]. simpl in IH2.
          apply Forall_cons in Hrest as [Hd Hrest'].
          destruct (isTrailSurrogate d) eqn:Et; [| discriminate].
          destruct (encodeURIComponent rest') as [enc|]; [| discriminate].
          intros [= <-]. rewrite forallb_app.
          rewrite escapeCodePoint_alphabet by now apply codePointOfPair_below.
          now apply IH2.
        * destruct (isTrailSurrogate c); [discriminate |].
          destruct (encodeURIComponent rest) as [enc|]; [| discriminate].
          intros [= <-]. rewrite forallb_app.
          rewrite escapeCodePoint_alphabet by lia.
          now apply IH1. }
  split; [exact Halpha |].
  rewrite forallb_forall in Halpha.
  split; apply forallb_forall; intros c Hc; specialize (Halpha c Hc);
    unfold uriUnreserved, isAlnum, isMark in Halpha; cbn [existsb lit N_of_ascii];
    to_arith; cbn; lia.
Qed.

Lemma encoded_alphabet_witness :
  forallb (fun c => uriUnreserved c || (c =? 0x25)) (lit "%E8%AF%B7%F0%9F%98%80") = true /\
  forallb (fun c => c <? 0x80) (lit "%E8%AF%B7%F0%9F%98%80") = true /\
  forallb (fun c => negb (existsb (N.eqb c) (lit "/?#&=+ "))) (lit "%E8%AF%B7%F0%9F%98%80") = true.
Proof.
  apply (encoded_alphabet [0x8BF7; 0xD83D; 0xDE00]).
  - repeat constructor.
  - reflexivity.
Defined.

(** ** [formatDate] and the project cards *)

(** Template literals print the integers from 0 to 99 with one or two
    decimal digits. *)
Lemma numberToString_small (n : Z) :
  (0 <= n < 100)%Z ->
  Dates.numberToString n =
  if (n <? 10)%Z then [0x30 + Z.to_N n]
  else [0x30 + Z.to_N (n / 10); 0x30 + Z.to_N (n mod 10)].
Proof.
  intros Hn.
  assert (Hall : forallb
                   (fun k => bool_decide
                      (Dates.numberToString (Z.of_nat k) =
                       if (Z.of_nat k <? 10)%Z then [0x30 + Z.to_N (Z.of_nat k)]
                       else [0x30 + Z.to_N (Z.of_nat k / 10);
                             0x30 + Z.to_N (Z.of_nat k mod 10)]))
                   (seq 0 100) = true) by (vm_compute; reflexivity).
  rewrite forallb_forall in Hall.
  assert (Hin : In (Z.to_nat n) (seq 0 100)) by (apply in_seq; lia).
  specialize (Hall (Z.to_nat n) Hin).
  rewrite Z2Nat.id in Hall by lia.
  exact (proj1 (bool_decide_eq_true _) Hall).
Qed.

Section FormatDate.
Variable getTime : jsstring -> option Z.
Variable toLocaleDateString : Z -> jsstring.

Local Abbreviation formatDate := (Dates.formatDate getTime toLocaleDateString).
Local Abbreviation projectCard := (Dates.projectCard getTime toLocaleDateString).
Local Abbreviation projectCards := (Dates.projectCards getTime toLocaleDateString).

(** X18.  The label of a date depends on its age [now - date] in
    milliseconds alone, with these thresholds: under one minute (and for
    every date in the future) "just edited"; from one minute to under one
    hour the whole minutes, a number from 1 to 59; from one hour to under
    one day the whole hours, from 1 to 23; from one day to under seven the
    whole days, from 1 to 6; from seven days on the locale's date.  A text
    that is no date is labelled "Invalid Date". *)
Theorem formatDate_thresholds (now : Z) (dateString : jsstring) :
  (getTime dateString = None -> formatDate now dateString = lit "Invalid Date") /\
  (forall date, getTime dateString = Some date ->
     let age := (now - date)%Z in
     ((age < 60000)%Z -> formatDate now dateString = Dates.justEdited) /\
     ((60000 <= age < 3600000)%Z ->
        formatDate now dateString = Dates.numberToString (age / 60000) ++ Dates.minutesAgo /\
        (1 <= age / 60000 <= 59)%Z) /\
     ((3600000 <= age < 86400000)%Z ->
        formatDate now dateString = Dates.numberToString (age / 3600000) ++ Dates.hoursAgo /\
        (1 <= age / 3600000 <= 23)%Z) /\
     ((86400000 <= age < 604800000)%Z ->
        formatDate now dateString = Dates.numberToString (age / 86400000) ++ Dates.daysAgo /\
        (1 <= age / 86400000 <= 6)%Z) /\
     ((604800000 <= age)%Z -> formatDate now dateString = toLocaleDateString date)).
Proof.
  unfold Dates.formatDate. split; [now intros -> |].
  intros date Hdate. rewrite Hdate. cbv zeta.
  set (age := (now - date)%Z).
  assert (Hm : (60000 * (age / 60000) <= age < 60000 * (age / 60000) + 60000)%Z).
  { pose proof (Z.div_mod age 60000 ltac:(lia)).
    pose proof (Z.mod_pos_bound age 60000 ltac:(lia)). lia. }
  assert (Hh : (3600000 * (age / 3600000) <= age < 3600000 * (age / 3600000) + 3600000)%Z).
  { pose proof (Z.div_mod age 3600000 ltac:(lia)).
    pose proof (Z.mod_pos_bound age 3600000 ltac:(lia)). lia. }
  assert (Hd : (86400000 * (age / 86400000) <= age < 86400000 * (age / 86400000) + 86400000)%Z).
  { pose proof (Z.div_mod age 86400000 ltac:(lia)).
    pose proof (Z.mod_pos_bound age 86400000 ltac:(lia)). lia. }
  repeat split; intros;
    repeat match goal with
           | |- context [(?a <? ?b)%Z] => destruct (Z.ltb_spec a b)
           end;
    try lia; reflexivity.
Qed.

(** X19.  The grid never shows more than three cards.  The "no projects
    yet" message and project cards are never shown together; once loaded,
    a signed-in user sees the message exactly when there is no card; the
    cards are those of the first three stored projects while the count
    beside the heading is that of all of them. *)
Theorem cards_and_empty_message (now : Z) (user : option User) (st : State) :
  (length (projectCards now user st) <= 3)%nat /\
  (View.showsEmptyMessage user st = true -> projectCards now user st = []) /\
  (forall u, user = Some u -> isLoading st = false ->
     (View.showsEmptyMessage user st = true <-> projectCards now user st = []) /\
     projectCards now user st = List.map (projectCard now) (previewProjects user st) /\
     length (projectCards now user st) = Nat.min 3 (length (projects st)) /\
     View.projectCount user st = Some (length (projects st))).
Proof.
  unfold Dates.projectCards, View.showsEmptyMessage, View.projectCount,
    previewProjects, slice0.
  split; [| split].
  - destruct (isLoading st); [cbn; lia |].
    destruct user; [| cbn; lia].
    rewrite length_map, length_firstn. lia.
  - destruct user; [| discriminate].
    destruct (isLoading st); [reflexivity |].
    destruct (projects st); [reflexivity | discriminate].
  - intros u -> ->. repeat split.
    + destruct (projects st); [reflexivity | discriminate].
    + destruct (projects st); [reflexivity | discriminate].
    + now rewrite length_map, length_firstn.
Qed.

(** X20.  The card of a stored project links to the editor path whose only
    query parameter is [id], the project's id, when that id is made of UUID
    characters: the parameter the redirect after the creation carried.  A
    thumbnail that is null or the empty string gives a card without image. *)
Theorem card_opens_its_project (now : Z) (project : Project) (encoded : jsstring) :
  forallb isUuidChar (project_id project) = true ->
  (exists href,
     View.card_href (projectCard now project) = Some href /\
     Url.queryParams href = [(lit "id", project_id project)] /\
     Url.upTo 0x3F href = Url.upTo 0x3F (canvasHref (project_id project) encoded)) /\
  View.card_title (projectCard now project) = project_title project /\
  (View.card_imageUrl (projectCard now project) = None <->
   project_thumbnail project = None \/ project_thumbnail project = Some []).
Proof.
  intros Hid. split; [| split; [reflexivity |]].
  - eexists. split; [reflexivity |]. split; [| reflexivity].
    pose proof (plain_uuid _ Hid) as Hplain.
    unfold Url.queryParams, Url.search.
    rewrite upTo_hash_free
      by (rewrite forallb_app, (plain_hash_free _ Hplain); reflexivity).
    change (Url.after 0x3F (lit "/lovart/canvas?id=" ++ project_id project))
      with (lit "id=" ++ project_id project).
    rewrite splitOn_amp_plain by (rewrite forallb_app, Hplain; reflexivity).
    reflexivity.
  - cbn. destruct (project_thumbnail project) as [[|c t]|]; cbn;
      split; intros H; try tauto; try discriminate;
      destruct H; discriminate.
Qed.

End FormatDate.

Lemma formatDate_thresholds_witness :
  Dates.formatDate (fun s => Some (Sample.epochMillis s)) (fun _ => []) 3600999 (lit "1000") =
    Dates.numberToString ((3600999 - 1000) / 60000) ++ Dates.minutesAgo /\
  (1 <= (3600999 - 1000) / 60000 <= 59)%Z.
Proof.
  apply (proj2 (formatDate_thresholds (fun s => Some (Sample.epochMillis s)) (fun _ => [])
                  3600999 (lit "1000")) 1000%Z eq_refl).
  lia.
Defined.

(** One millisecond short of an hour is 59 minutes; the hour itself is
    1 hour; a date in the future is "just edited". *)
Example formatDate_at_the_hour :
  let formatDate := Dates.formatDate (fun s => Some (Sample.epochMillis s)) (fun _ => []) in
  formatDate 3600999%Z (lit "1000") = lit "59" ++ Dates.minutesAgo /\
  formatDate 3601000%Z (lit "1000") = lit "1" ++ Dates.hoursAgo /\
  formatDate 1000%Z (lit "3601000") = Dates.justEdited.
Proof. repeat split. Qed.

Lemma cards_and_empty_message_witness :
  length
    (Dates.projectCards (fun s => Some (Sample.epochMillis s)) (fun _ => []) 2000
       (Some Sample.u1)
       (stateAfter (loadData (Some Sample.u1) (Some (Sample.store RefStore.noFaults)))
          initialState Sample.busyDb)) =
  Nat.min 3
    (length
       (projects
          (stateAfter (loadData (Some Sample.u1) (Some (Sample.store RefStore.noFaults)))
             initialState Sample.busyDb))).
Proof.
  apply (cards_and_empty_message (fun s => Some (Sample.epochMillis s)) (fun _ => []) 2000
           (Some Sample.u1)
           (stateAfter (loadData (Some Sample.u1) (Some (Sample.store RefStore.noFaults)))
              initialState Sample.busyDb)) with (u := Sample.u1).
  - reflexivity.
  - reflexivity.
Defined.

Lemma card_opens_its_project_witness :
  exists href,
    View.card_href
      (Dates.projectCard (fun s => Some (Sample.epochMillis s)) (fun _ => []) 2000
         {| project_id := Sample.uuid; project_title := lit "Design a logo";
            project_thumbnail := None; project_updated_at := lit "1700" |}) = Some href /\
    Url.queryParams href = [(lit "id", Sample.uuid)] /\
    Url.upTo 0x3F href = Url.upTo 0x3F (canvasHref Sample.uuid (lit "Design%20a%20logo")).
Proof.
  apply (card_opens_its_project (fun s => Some (Sample.epochMillis s)) (fun _ => []) 2000
           {| project_id := Sample.uuid; project_title := lit "Design a logo";
              project_thumbnail := None; project_updated_at := lit "1700" |}
           (lit "Design%20a%20logo")).
  reflexivity.
Defined.

(** ** The typing effect *)

Module TypewriterFacts.
Import Typewriter.

Ltac fields :=
  unfold slice0;
  cbn [placeholder placeholderIndex effectIndex currentText currentIndex isDeleting
       timeout elapsed negb andb].

Ltac decide_nat :=
  repeat match goal with
         | |- context [(?a <=? ?b)%nat] =>
             first [ rewrite (proj2 (Nat.leb_le a b)) by lia
                   | rewrite (proj2 (Nat.leb_gt a b)) by lia ]
         | |- context [(?a <? ?b)%nat] =>
             first [ rewrite (proj2 (Nat.ltb_lt a b)) by lia
                   | rewrite (proj2 (Nat.ltb_ge a b)) by lia ]
         | |- context [(?a =? ?b)%nat] =>
             first [ rewrite (proj2 (Nat.eqb_eq a b)) by lia
                   | rewrite (proj2 (Nat.eqb_neq a b)) by lia ]
         end.

Ltac same_machine :=
  fields; do 2 f_equal; rewrite ?Nat2N.inj_succ, ?Nat.sub_diag, ?Nat.sub_0_r; try lia.

Lemma steps_app (a b : nat) (m : Machine) :
  steps (a + b) m = match steps a m with
                    | Some m' => steps b m'
                    | None => None
                    end.
Proof.
  revert m. induction a as [|a IH]; intros m; [reflexivity |].
  cbn [Nat.add steps]. destruct (step m); [apply IH | reflexivity].
Qed.

Lemma effect_typed (m : Machine) (text : jsstring) :
  nth_error placeholders (placeholderIndex m) = Some text ->
  effect m = Some (typed (placeholderIndex m) text (elapsed m) 0).
Proof.
  intros Hnth. unfold effect. rewrite Hnth. unfold type, typed. fields.
  decide_nat. same_machine.
Qed.

Lemma step_typed (p : nat) (text : jsstring) (e : N) (k : nat) :
  (k < length text)%nat ->
  step (typed p text e k) = Some (typed p text e (S k)).
Proof.
  intros Hk. unfold step, typed. fields. unfold type. fields.
  decide_nat. same_machine.
Qed.

Lemma steps_typed (p : nat) (text : jsstring) (e : N) (k : nat) :
  (k <= length text)%nat ->
  steps k (typed p text e 0) = Some (typed p text e k).
Proof.
  induction k as [|k IH]; intros Hk; [reflexivity |].
  replace (S k) with (k + 1)%nat by lia.
  rewrite steps_app, IH by lia. cbn [steps].
  rewrite step_typed by lia. now replace (k + 1)%nat with (S k) by lia.
Qed.

Lemma step_typed_all (p : nat) (text : jsstring) (e : N) :
  step (typed p text e (length text)) = Some (pausing p text e).
Proof.
  unfold step, typed, pausing. fields. unfold type. fields.
  decide_nat. fields. rewrite firstn_all. same_machine.
Qed.

Lemma step_pausing (p : nat) (text : jsstring) (e : N) :
  step (pausing p text e) = Some (deleted p text e (length text)).
Proof.
  unfold step, pausing, deleted. fields. unfold type. fields.
  decide_nat. fields. cbn [Nat.pred]. rewrite firstn_all. same_machine.
Qed.

Lemma step_deleted (p : nat) (text : jsstring) (e : N) (k : nat) :
  (S k <= length text)%nat ->
  step (deleted p text e (S k)) = Some (deleted p text e k).
Proof.
  intros Hk. unfold step, deleted. fields. unfold type. fields.
  decide_nat. fields. cbn [Nat.pred].
  replace (length text - k)%nat with (S (length text - S k)) by lia.
  same_machine.
Qed.

Lemma steps_deleted (p : nat) (text : jsstring) (e : N) (j : nat) :
  (j <= length text)%nat ->
  steps j (deleted p text e (length text)) = Some (deleted p text e (length text - j)).
Proof.
  induction j as [|j IH]; intros Hj; [now rewrite Nat.sub_0_r |].
  replace (S j) with (j + 1)%nat by lia.
  rewrite steps_app, IH by lia. cbn [steps].
  replace (length text - j)%nat with (S (length text - (j + 1))) by lia.
  now rewrite step_deleted by lia.
Qed.

Lemma step_deleted_all (p : nat) (text : jsstring) (e : N) :
  step (deleted p text e 0) = Some (finished p text e).
Proof.
  unfold step, deleted, finished. fields. unfold type. fields.
  decide_nat. fields. cbn [firstn]. same_machine.
Qed.

Lemma nth_error_placeholders (p : nat) (text : jsstring) :
  nth_error placeholders p = Some text ->
  (p < 5)%nat /\ ((p + 1) mod length placeholders)%nat <> p /\
  exists next, nth_error placeholders ((p + 1) mod length placeholders)%nat = Some next.
Proof.
  intros Hnth.
  assert (Hp : (p < 5)%nat).
  { change 5%nat with (length placeholders).
    apply (proj1 (nth_error_Some placeholders p)). now rewrite Hnth. }
  split; [exact Hp |].
  do 5 (destruct p as [|p]; [cbn; split; [lia | eauto] |]). lia.
Qed.

Lemma step_phase (m m' : Machine) : Phase m -> step m = Some m' -> Phase m'.
Proof.
  intros Hphase Hstep.
  destruct Hphase as [p text e k Hnth Hk | p text e Hnth | p text e k Hnth Hk | p text e Hnth].
  - destruct (Nat.eq_dec k (length text)) as [-> | Hne].
    + rewrite step_typed_all in Hstep. injection Hstep as <-. now constructor.
    + rewrite step_typed in Hstep by lia. injection Hstep as <-. constructor; [easy | lia].
  - rewrite step_pausing in Hstep. injection Hstep as <-. now constructor.
  - destruct k as [|k].
    + rewrite step_deleted_all in Hstep. injection Hstep as <-. now constructor.
    + rewrite step_deleted in Hstep by lia. injection Hstep as <-. constructor; [easy | lia].
  - destruct (nth_error_placeholders p text Hnth) as (_ & Hne & next & Hnext).
    unfold step in Hstep. cbn [timeout finished placeholderIndex effectIndex] in Hstep.
    rewrite (proj2 (Nat.eqb_neq _ _) Hne) in Hstep.
    rewrite (effect_typed _ next) in Hstep by exact Hnext.
    injection Hstep as <-. constructor; [exact Hnext | lia].
Qed.

Lemma runs_phase (m : Machine) : Runs m -> Phase m.
Proof.
  induction 1 as [m Hmount | m m' _ IH Hstep].
  - unfold mount in Hmount.
    rewrite (effect_typed _ (hd [] placeholders)) in Hmount by reflexivity.
    injection Hmount as <-. constructor; [reflexivity | lia].
  - exact (step_phase m m' IH Hstep).
Qed.

Lemma phase_steps_on (m : Machine) : Phase m -> exists m', step m = Some m'.
Proof.
  intros [p text e k Hnth Hk | p text e Hnth | p text e k Hnth Hk | p text e Hnth].
  - destruct (Nat.eq_dec k (length text)) as [-> | Hne].
    + rewrite step_typed_all. eauto.
    + rewrite step_typed by lia. eauto.
  - rewrite step_pausing. eauto.
  - destruct k as [|k].
    + rewrite step_deleted_all. eauto.
    + rewrite step_deleted by lia. eauto.
  - destruct (nth_error_placeholders p text Hnth) as (_ & Hne & next & Hnext).
    unfold step. cbn [timeout finished placeholderIndex effectIndex].
    rewrite (proj2 (Nat.eqb_neq _ _) Hne).
    rewrite (effect_typed _ next) by exact Hnext. eauto.
Qed.

Lemma steps_to_pausing (p : nat) (text : jsstring) (e : N) :
  steps (length text + 1) (typed p text e 0) = Some (pausing p text e).
Proof.
  rewrite steps_app, steps_typed by lia. cbn [steps]. now rewrite step_typed_all.
Qed.

Lemma steps_to_deleted (p : nat) (text : jsstring) (e : N) (j : nat) :
  (j <= length text)%nat ->
  steps (length text + 2 + j) (typed p text e 0) =
  Some (deleted p text e (length text - j)).
Proof.
  intros Hj.
  replace (length text + 2 + j)%nat with ((length text + 1) + (1 + j))%nat by lia.
  rewrite steps_app, steps_to_pausing, steps_app. cbn [steps].
  rewrite step_pausing. now apply steps_deleted.
Qed.

Lemma steps_to_finished (p : nat) (text : jsstring) (e : N) :
  steps (2 * length text + 3) (typed p text e 0) = Some (finished p text e).
Proof.
  replace (2 * length text + 3)%nat with ((length text + 2 + length text) + 1)%nat by lia.
  rewrite steps_app, steps_to_deleted by lia. rewrite Nat.sub_diag. cbn [steps].
  now rewrite step_deleted_all.
Qed.

End TypewriterFacts.

Import TypewriterFacts.

(** X21.  The animation never stops and never shows anything but a prefix
    of one of the five texts: in every state it goes through after the
    mount there is a next step, [placeholderIndex] is below 5, the text
    being typed is the one at the index the effect ran for, and the
    placeholder is a prefix of it. *)
Theorem typing_never_stops (m : Typewriter.Machine) :
  Typewriter.Runs m ->
  (exists m', Typewriter.step m = Some m') /\
  (Typewriter.placeholderIndex m < 5)%nat /\
  nth_error Typewriter.placeholders (Typewriter.effectIndex m) =
    Some (Typewriter.currentText m) /\
  exists k, Typewriter.placeholder m = firstn k (Typewriter.currentText m).
Proof.
  intros Hruns. pose proof (runs_phase m Hruns) as Hphase.
  split; [now apply phase_steps_on |].
  destruct Hphase as [p text e k Hnth Hk | p text e Hnth | p text e k Hnth Hk | p text e Hnth];
    destruct (nth_error_placeholders p text Hnth) as (Hp & _ & _);
    cbn [Typewriter.typed Typewriter.pausing Typewriter.deleted Typewriter.finished
         Typewriter.placeholderIndex Typewriter.effectIndex Typewriter.currentText
         Typewriter.placeholder];
    (split; [| split; [exact Hnth |]]).
  all: try exact Hp.
  all: try (now exists k).
  - exists (length text). now rewrite firstn_all.
  - apply Nat.mod_upper_bound. discriminate.
  - now exists 0%nat.
Qed.

(** X22.  One run of the effect for a text of [n] code units: the text
    grows by one code unit every step until it is whole after [n] steps,
    stays for the pause, shrinks by one code unit every step, and after
    [2n + 3] steps the placeholder is empty, no timer is pending, the
    index has moved to the next of the five texts, and
    [2000 + 150 (n + 1)] milliseconds of timers have passed; the next step
    runs the effect for the next text. *)
Theorem typing_cycle (m : Typewriter.Machine) (text : jsstring) :
  nth_error Typewriter.placeholders (Typewriter.placeholderIndex m) = Some text ->
  exists m0 m1,
    Typewriter.effect m = Some m0 /\
    (forall k, (k <= length text)%nat ->
       exists mk, Typewriter.steps k m0 = Some mk /\
                  Typewriter.placeholder mk = firstn k text) /\
    (forall j, (j <= length text)%nat ->
       exists mj, Typewriter.steps (length text + 2 + j) m0 = Some mj /\
                  Typewriter.placeholder mj = firstn (length text - j) text) /\
    Typewriter.steps (2 * length text + 3) m0 = Some m1 /\
    Typewriter.placeholder m1 = [] /\
    Typewriter.timeout m1 = None /\
    Typewriter.placeholderIndex m1 =
      ((Typewriter.placeholderIndex m + 1) mod length Typewriter.placeholders)%nat /\
    Typewriter.elapsed m1 =
      Typewriter.elapsed m + 2000 + 150 * N.of_nat (S (length text)) /\
    Typewriter.step m1 = Typewriter.effect m1.
Proof.
  intros Hnth.
  set (p := Typewriter.placeholderIndex m). set (e := Typewriter.elapsed m).
  exists (Typewriter.typed p text e 0), (Typewriter.finished p text e).
  split; [now apply effect_typed |]. split; [| split; [| split]].
  - intros k Hk. eexists. split; [now apply steps_typed | reflexivity].
  - intros j Hj. eexists. split; [now apply steps_to_deleted | reflexivity].
  - apply steps_to_finished.
  - destruct (nth_error_placeholders p text Hnth) as (_ & Hne & _).
    repeat split. unfold Typewriter.step.
    cbn [Typewriter.timeout Typewriter.finished Typewriter.placeholderIndex
         Typewriter.effectIndex].
    now rewrite (proj2 (Nat.eqb_neq _ _) Hne).
Qed.

Lemma typing_never_stops_witness :
  exists m', Typewriter.step (Typewriter.typed 0 (hd [] Typewriter.placeholders) 0 0) = Some m'.
Proof.
  apply (typing_never_stops (Typewriter.typed 0 (hd [] Typewriter.placeholders) 0 0)).
  apply Typewriter.runs_mount. reflexivity.
Defined.

Lemma typing_cycle_witness :
  exists m0 m1,
    Typewriter.mount = Some m0 /\
    (forall k, (k <= 22)%nat ->
       exists mk, Typewriter.steps k m0 = Some mk /\
                  Typewriter.placeholder mk = firstn k (hd [] Typewriter.placeholders)) /\
    (forall j, (j <= 22)%nat ->
       exists mj, Typewriter.steps (22 + 2 + j) m0 = Some mj /\
                  Typewriter.placeholder mj = firstn (22 - j) (hd [] Typewriter.placeholders)) /\
    Typewriter.steps 47 m0 = Some m1 /\
    Typewriter.placeholder m1 = [] /\
    Typewriter.timeout m1 = None /\
    Typewriter.placeholderIndex m1 = 1%nat /\
    Typewriter.elapsed m1 = 5450 /\
    Typewriter.step m1 = Typewriter.effect m1.
Proof.
  apply (typing_cycle
           {| Typewriter.placeholder := []; Typewriter.placeholderIndex := 0;
              Typewriter.effectIndex := 0; Typewriter.currentText := [];
              Typewriter.currentIndex := 0; Typewriter.isDeleting := false;
              Typewriter.timeout := None; Typewriter.elapsed := 0 |}
           (hd [] Typewriter.placeholders)).
  reflexivity.
Defined.

Lemma steps_trans (a b : nat) (m m' m'' : Typewriter.Machine) :
  Typewriter.steps a m = Some m' -> Typewriter.steps b m' = Some m'' ->
  Typewriter.steps (a + b) m = Some m''.
Proof. intros Ha Hb. now rewrite steps_app, Ha. Qed.

Lemma cycle_next (p : nat) (text next : jsstring) (e : N) :
  nth_error Typewriter.placeholders p = Some text ->
  nth_error Typewriter.placeholders ((p + 1) mod length Typewriter.placeholders)%nat =
    Some next ->
  Typewriter.steps (2 * length text + 4) (Typewriter.typed p text e 0) =
  Some (Typewriter.typed ((p + 1) mod length Typewriter.placeholders)%nat next
          (e + 2000 + 150 * N.of_nat (S (length text))) 0).
Proof.
  intros Hnth Hnext.
  replace (2 * length text + 4)%nat with ((2 * length text + 3) + 1)%nat by lia.
  rewrite steps_app, steps_to_finished. cbn [Typewriter.steps].
  destruct (nth_error_placeholders p text Hnth) as (_ & Hne & _).
  unfold Typewriter.step at 1.
  cbn [Typewriter.timeout Typewriter.finished Typewriter.placeholderIndex
       Typewriter.effectIndex].
  rewrite (proj2 (Nat.eqb_neq _ _) Hne).
  now rewrite (effect_typed _ next) by exact Hnext.
Qed.

(** X23.  The animation is periodic: mounted on the first text, it types
    and deletes the five texts in their order and is back at the start of
    the first after 148 steps, in which the timers took 20350 ms; and so
    after every multiple of them. *)
Theorem typing_is_periodic (rounds : nat) :
  exists first,
    nth_error Typewriter.placeholders 0 = Some first /\
    Typewriter.mount = Some (Typewriter.typed 0 first 0 0) /\
    Typewriter.steps (148 * rounds) (Typewriter.typed 0 first 0 0) =
      Some (Typewriter.typed 0 first (20350 * N.of_nat rounds) 0).
Proof.
  eexists. split; [reflexivity |]. split; [reflexivity |].
  set (first := [0x8BA9; _; _; _; _; _; _; _; _; _; _; _; _; _; _; _; _; _; _; _; _; _]).
  assert (Hround : forall e,
            Typewriter.steps 148 (Typewriter.typed 0 first e 0) =
            Some (Typewriter.typed 0 first (e + 20350) 0)).
  { intros e.
    refine (steps_trans 48 100 _ _ _ (cycle_next 0 first _ e eq_refl eq_refl) _).
    refine (steps_trans 32 68 _ _ _ (cycle_next 1 _ _ _ eq_refl eq_refl) _).
    refine (steps_trans 24 44 _ _ _ (cycle_next 2 _ _ _ eq_refl eq_refl) _).
    refine (steps_trans 22 22 _ _ _ (cycle_next 3 _ _ _ eq_refl eq_refl) _).
    refine (eq_trans (cycle_next 4 _ _ _ eq_refl eq_refl) _).
    unfold Typewriter.typed. do 2 f_equal. cbn. lia. }
  induction rounds as [|rounds IH]; [reflexivity |].
  replace (148 * S rounds)%nat with (148 * rounds + 148)%nat by lia.
  rewrite steps_app, IH, Hround. unfold Typewriter.typed. do 2 f_equal.
  rewrite Nat2N.inj_succ. lia.
Qed.

(** ** The Data-Store Gateway *)

(** X24.  [createClerkSupabaseClient] attaches an [Authorization] header
    exactly when the token is neither null nor the empty string, and then
    it is the one header "Bearer " followed by the token, from which the
    token is read back; with a null or empty token the options are those of
    [createServerSupabaseClient]: no header at all. *)
Theorem authorization_header (url anonKey : jsstring) (token : option jsstring) :
  (Gateway.globalHeaders (Gateway.createClerkSupabaseClient url anonKey token) = [] <->
   token = None \/ token = Some []) /\
  (token = None \/ token = Some [] ->
   Gateway.createClerkSupabaseClient url anonKey token =
   Gateway.createServerSupabaseClient url anonKey) /\
  (forall t, token = Some t -> t <> [] ->
     Gateway.globalHeaders (Gateway.createClerkSupabaseClient url anonKey token) =
       [(lit "Authorization", lit "Bearer " ++ t)] /\
     forall t', t' <> [] ->
       Gateway.globalHeaders (Gateway.createClerkSupabaseClient url anonKey (Some t')) =
       Gateway.globalHeaders (Gateway.createClerkSupabaseClient url anonKey token) ->
       t' = t).
Proof.
  unfold Gateway.createClerkSupabaseClient, Gateway.createServerSupabaseClient.
  cbn [Gateway.globalHeaders].
  split; [| split].
  - destruct token as [[|c t]|]; cbn; split; intros H; auto; try discriminate.
    destruct H as [H | H]; discriminate.
  - intros [-> | ->]; reflexivity.
  - intros t -> Ht. destruct t as [|c t]; [contradiction |]. cbn [truthy].
    split; [reflexivity |].
    intros [|c' t'] Ht'; [contradiction |]. cbn [truthy].
    intros [= Hc Htail]. now subst.
Qed.

Lemma authorization_header_witness :
  Gateway.globalHeaders
    (Gateway.createClerkSupabaseClient (lit "https://db.example") (lit "anon")
       (Some (lit "eyJ.abc"))) =
  [(lit "Authorization", lit "Bearer eyJ.abc")].
Proof.
  apply (authorization_header (lit "https://db.example") (lit "anon") (Some (lit "eyJ.abc"))
           ).
  - reflexivity.
  - discriminate.
Defined.

(** ** The Enter key *)

(** X25.  A key press in the prompt input submits only if the key is
    Enter, and then does exactly what a click on the button does (with a
    blank prompt or a creation in flight: nothing); any other key leaves
    state, store and trace as they were. *)
Theorem enter_submits_like_a_click {W} (key : jsstring) (user : option User)
    (sb : option (Supabase W)) newProjectId st (w : W) :
  (key = lit "Enter" ->
   run (onKeyDown key user sb newProjectId) st w =
   run (handleGenerate user sb newProjectId) st w) /\
  (key <> lit "Enter" ->
   run (onKeyDown key user sb newProjectId) st w =
   (Returned tt, {| store := w; ui := st; trace := [] |})) /\
  (forallb isWhiteSpace (inputValue st) = true \/ isGenerating st = true ->
   run (onKeyDown key user sb newProjectId) st w =
   (Returned tt, {| store := w; ui := st; trace := [] |})).
Proof.
  split; [| split].
  - intros ->. apply onKeyDown_Enter.
  - apply onKeyDown_other.
  - intros Hblank.
    assert (Hguard : run (handleGenerate user sb newProjectId) st w =
                     (Returned tt, {| store := w; ui := st; trace := [] |})).
    { apply handleGenerate_guarded. destruct Hblank as [H | H]; [left | now right].
      apply trim_nil_iff in H. now rewrite H. }
    destruct (decide (key = lit "Enter")) as [-> | Hkey].
    + now rewrite onKeyDown_Enter.
    + now apply onKeyDown_other.
Qed.

Lemma enter_submits_like_a_click_witness :
  run (onKeyDown (lit "Enter") (Some Sample.u1) (Some (Sample.store RefStore.noFaults))
         Sample.uuid)
      (Sample.typed (lit "Design a logo")) Sample.emptyDb =
  run (handleGenerate (Some Sample.u1) (Some (Sample.store RefStore.noFaults)) Sample.uuid)
      (Sample.typed (lit "Design a logo")) Sample.emptyDb.
Proof.
  apply (enter_submits_like_a_click (lit "Enter") (Some Sample.u1)
           (Some (Sample.store RefStore.noFaults)) Sample.uuid
           (Sample.typed (lit "Design a logo")) Sample.emptyDb).
  reflexivity.
Defined.

(** ** Creating, then listing *)

Section CreateThenList.
Variable instant : jsstring -> Z.

(** X26.  Against the reference store with nothing failing: a project
    created by [handleGenerate] under a fresh id is in the list that the
    next [loadData] stores, with the derived title and without thumbnail,
    next to every project that was listed before; the stored list has grown
    by one and is ordered newest first. *)
Theorem created_project_is_listed (db : RefStore.Db) (user : User) (newProjectId : jsstring)
    (st st' : State) :
  submits st ->
  wellFormed (trim (inputValue st)) = true ->
  existsb (fun p => bool_decide (project_id p = newProjectId)) (RefStore.projects_tbl db) = false ->
  let sb := RefStore.client instant RefStore.noFaults in
  let created := run (handleGenerate (Some user) (Some sb) newProjectId) st db in
  let listed := stateAfter (loadData (Some user) (Some sb)) st' (store (snd created)) in
  In {| project_id := newProjectId; project_title := projectTitle (inputValue st);
        project_thumbnail := None; project_updated_at := RefStore.now db |}
     (projects listed) /\
  (forall p, In p (RefStore.projects_tbl db) -> In p (projects listed)) /\
  length (projects listed) = S (length (RefStore.projects_tbl db)) /\
  newestFirst instant (projects listed).
Proof.
  intros Hs Hwf Hfresh sb created listed.
  apply encodeURIComponent_returns in Hwf as [encoded Henc].
  assert (Hins : sb (projectInsert newProjectId st) db =
                 (RefStore.ok {| project_id := newProjectId;
                                 project_title := projectTitle (inputValue st);
                                 project_thumbnail := None;
                                 project_updated_at := RefStore.now db |},
                  {| RefStore.user_credits := RefStore.user_credits db;
                     RefStore.projects_tbl :=
                       RefStore.projects_tbl db ++
                       [{| project_id := newProjectId;
                           project_title := projectTitle (inputValue st);
                           project_thumbnail := None;
                           project_updated_at := RefStore.now db |}];
                     RefStore.now := RefStore.now db |})).
  { unfold sb, RefStore.client, projectInsert. cbn. now rewrite Hfresh. }
  assert (Hstore : RefStore.projects_tbl (store (snd created)) =
                   RefStore.projects_tbl db ++
                   [{| project_id := newProjectId;
                       project_title := projectTitle (inputValue st);
                       project_thumbnail := None;
                       project_updated_at := RefStore.now db |}]).
  { unfold created.
    rewrite (handleGenerate_navigates user sb newProjectId st db encoded Hs)
      by (now rewrite ?Hins).
    cbn [snd store]. now rewrite Hins. }
  assert (Hlisted : projects listed =
                    merge_sort (byUpdatedAt instant false)
                      (RefStore.projects_tbl (store (snd created)))).
  { unfold listed. rewrite loadData_projects. reflexivity. }
  assert (Hperm : projects listed ≡ₚ
                  RefStore.projects_tbl db ++
                  [{| project_id := newProjectId;
                      project_title := projectTitle (inputValue st);
                      project_thumbnail := None;
                      project_updated_at := RefStore.now db |}]).
  { rewrite Hlisted, <- Hstore. apply merge_sort_Permutation. }
  split; [| split; [| split]].
  - apply (Permutation_in _ (Permutation_sym Hperm)), in_or_app. right. now left.
  - intros p Hp. apply (Permutation_in _ (Permutation_sym Hperm)), in_or_app. now left.
  - rewrite (Permutation_length Hperm), length_app. cbn. lia.
  - rewrite Hlisted. apply Sorted_merge_sort. apply _.
Qed.

End CreateThenList.

Lemma created_project_is_listed_witness :
  In {| project_id := Sample.uuid; project_title := lit "Design a logo";
        project_thumbnail := None; project_updated_at := lit "1700" |}
     (projects
        (stateAfter (loadData (Some Sample.u1) (Some (Sample.store RefStore.noFaults)))
           initialState
           (store (snd (run (handleGenerate (Some Sample.u1)
                               (Some (Sample.store RefStore.noFaults)) Sample.uuid)
                          (Sample.typed (lit "  Design a logo  ")) Sample.busyDb))))).
Proof.
  exact (proj1 (created_project_is_listed Sample.epochMillis Sample.busyDb Sample.u1
                  Sample.uuid (Sample.typed (lit "  Design a logo  ")) initialState
                  (conj eq_refl eq_refl) eq_refl eq_refl)).
Defined.
